(** * audioldm2/utils.py: the configuration resolver and its helpers

    A shallow embedding of [audioldm2/utils.py].  Python values are an
    inductive type, dictionaries are finite maps with string keys, and a
    function of the module is a computation in a small state-and-exception
    monad: the state holds [sys.modules] and the trace of the observable
    actions (imports, calls, prints, file and network accesses), and an
    exception keeps the state reached when it was raised, as in Python. *)

From Stdlib Require Import ZArith String Ascii List Bool Lia.
From Stdlib Require Import Floats.SpecFloat.
From Stdlib Require Import Decimal DecimalNat DecimalString.
From stdpp Require Import gmap strings list fin_maps.

#[local] Set Warnings "-register-all".
#[local] Open Scope string_scope.
#[local] Open Scope Z_scope.

(** ** Strings, as [str] has them *)

Module PyStr.

(** [c in s] for a one-character [c]. *)
Fixpoint has_char (c : ascii) (s : string) : bool :=
  match s with
  | EmptyString => false
  | String a rest => Ascii.eqb a c || has_char c rest
  end.

(** [s.startswith(p)]. *)
Fixpoint startswith (p s : string) : bool :=
  match p, s with
  | EmptyString, _ => true
  | String a p', String b s' => Ascii.eqb a b && startswith p' s'
  | String _ _, EmptyString => false
  end.

(** [s.endswith(c)] for a one-character [c]. *)
Fixpoint endswith_char (c : ascii) (s : string) : bool :=
  match s with
  | EmptyString => false
  | String a EmptyString => Ascii.eqb a c
  | String _ rest => endswith_char c rest
  end.

(** [sub in s]: substring containment. *)
Fixpoint contains (sub s : string) : bool :=
  startswith sub s ||
  match s with
  | EmptyString => false
  | String _ rest => contains sub rest
  end.

(** The cut of [s] at the last occurrence of [sep]: what is before it and
    what is after it; [None] when [sep] does not occur. *)
Fixpoint rcut (sep : ascii) (s : string) : option (string * string) :=
  match s with
  | EmptyString => None
  | String a rest =>
      match rcut sep rest with
      | Some (pre, suf) => Some (String a pre, suf)
      | None => if Ascii.eqb a sep then Some (EmptyString, rest) else None
      end
  end.

(** [s.rsplit(sep, 1)] for a one-character [sep]. *)
Definition rsplit1 (sep : ascii) (s : string) : list string :=
  match rcut sep s with
  | Some (pre, suf) => [pre; suf]
  | None => [s]
  end.

(** [all(a == c for a in s)]. *)
Fixpoint all_char (c : ascii) (s : string) : bool :=
  match s with
  | EmptyString => true
  | String a rest => Ascii.eqb a c && all_char c rest
  end.

(** [s.rstrip(c)] for a one-character [c]. *)
Fixpoint rstrip (c : ascii) (s : string) : string :=
  match s with
  | EmptyString => EmptyString
  | String a rest =>
      match rstrip c rest with
      | EmptyString => if Ascii.eqb a c then EmptyString else String a EmptyString
      | r => String a r
      end
  end.

End PyStr.

(** ** [os.path] on POSIX *)

Module PosixPath.

Definition sep : ascii := "/"%char.

(** [os.path.join(a, p)] with two arguments. *)
Definition join (a p : string) : string :=
  if PyStr.startswith "/" p then p
  else if (String.eqb a "" || PyStr.endswith_char sep a)%bool then a ++ p
  else a ++ "/" ++ p.

(** [os.path.basename(p)]: what follows the last slash. *)
Definition basename (p : string) : string :=
  match PyStr.rcut sep p with
  | Some (_, tail) => tail
  | None => p
  end.

(** [os.path.dirname(p)]: up to the last slash, trailing slashes removed
    unless the head consists of slashes only. *)
Definition dirname (p : string) : string :=
  match PyStr.rcut sep p with
  | Some (pre, _) =>
      let head := pre ++ "/" in
      if PyStr.all_char sep head then head else PyStr.rstrip sep head
  | None => ""
  end.

End PosixPath.

(** ** Values, exceptions, events *)

(** The values the module handles.  A dict has str keys, as a config node
    has.  A function is what [def] and [lambda] make; a class is callable
    but is not a function; both are named, and what a call does is given by
    the host.  An instance is a plain object: it cannot be called, indexed
    or searched. *)
Inductive value : Type :=
| VNone
| VBool (b : bool)
| VInt (z : Z)
| VFloat (f : spec_float)
| VStr (s : string)
| VList (l : list value)
| VDict (d : gmap string value)
| VFunction (qualname : string)
| VClass (qualname : string)
| VInstance (cls : string) (attrs : gmap string value).

Inductive exn_class : Type :=
| KeyError
| ValueError
| TypeError
| AttributeError
| ModuleNotFoundError
| FileNotFoundError
| WaveError
| ZeroDivisionError
| OverflowError
| ImportError
| OtherError (qualname : string).

Record exn : Type := Exn { exn_type : exn_class; exn_msg : string }.

Inductive outcome (A : Type) : Type :=
| Return (a : A)
| Raise (e : exn).
Arguments Return {A} a.
Arguments Raise {A} e.

(** What a run lets the outside observe, in order. *)
Inductive event : Type :=
| EvImport (name : string)
| EvReload (name : string)
| EvCall (callee : value) (kwargs : gmap string value)
| EvPrint (text : string) (keys : list string)
| EvHubDownload (repo_id filename local_dir : string)
| EvOpen (fname : string)
| EvClose (fname : string).

(** What the reader that [wave.open] returns reports of a PCM WAV file. *)
Record wave_params : Type := WaveParams {
  nchannels : Z;
  sampwidth : Z;
  framerate : Z;
  nframes : Z
}.

(** A file as [wave.open] sees it: one it accepts, with what its reader
    reports, or one it rejects, with the exception it raises ([wave.Error]
    on a bad header, [EOFError] on a file that ends too early). *)
Inductive file : Type :=
| WaveFile (p : wave_params)
| OtherFile (e : exn).

(** What the module does not define itself and finds in its environment:
    the modules the import system can load (a dotted module name is one key;
    the loading of parent packages is left out), the behaviour of the
    callables, the file system, the process environment and the hub.
    [debugger_session f] is what the tracer armed by a call of [f] does
    when the function that called [f] returns: nothing, when [f] arms no
    tracer or the interactive session is resumed, or else the exception
    with which the session ends when it is quit or its input has come to
    an end ([bdb.BdbQuit] for [ipdb.set_trace]). *)
Record host : Type := Host {
  module_source : gmap string (gmap string value);
  call_behaviour : value -> gmap string value -> outcome value;
  debugger_session : value -> outcome unit;
  files : gmap string file;
  environ : gmap string string;
  home : string;
  hub_download : string -> string -> string -> outcome string
}.

Record world : Type := World {
  sys_modules : gmap string (gmap string value);
  trace : list event
}.

(** ** The monad *)

Definition M (A : Type) : Type := world -> outcome A * world.

Definition ret {A} (a : A) : M A := fun w => (Return a, w).

Definition raise {A} (c : exn_class) (msg : string) : M A :=
  fun w => (Raise (Exn c msg), w).

Definition bind {A B} (m : M A) (k : A -> M B) : M B :=
  fun w =>
    match m w with
    | (Return a, w') => k a w'
    | (Raise e, w') => (Raise e, w')
    end.

Notation "'do' x <- m ; k" := (bind m (fun x => k))
  (at level 10, x pattern, m at level 100, k at level 200).

(** [try: body / except: handler], the bare [except] that catches everything. *)
Definition try_except {A} (body : M A) (handler : exn -> M A) : M A :=
  fun w =>
    match body w with
    | (Return a, w') => (Return a, w')
    | (Raise e, w') => handler e w'
    end.

(** [try: body / finally: cleanup]. *)
Definition try_finally {A} (body : M A) (cleanup : M unit) : M A :=
  fun w =>
    match body w with
    | (r, w') =>
        match cleanup w' with
        | (Return _, w'') => (r, w'')
        | (Raise e, w'') => (Raise e, w'')
        end
    end.

Definition log (e : event) : M unit :=
  fun w => (Return tt, World (sys_modules w) (trace w ++ [e])).

Definition lift {A} (o : outcome A) : M A := fun w => (o, w).

(** ** The operations of Python the module uses *)

Module Py.
Section WithHost.
Context (h : host).

(** [v == s] for a str [s]: only a str compares equal to a str. *)
Definition eq_str (v : value) (s : string) : bool :=
  match v with
  | VStr t => String.eqb t s
  | _ => false
  end.

(** [needle in container] for a str [needle]: a substring test on a str,
    a key test on a dict, an element test on a list; [None] on the other
    values, which are not iterable. *)
Definition membership (needle : string) (container : value) : option bool :=
  match container with
  | VStr s => Some (PyStr.contains needle s)
  | VDict d => Some (match d !! needle with Some _ => true | None => false end)
  | VList l => Some (existsb (fun x => eq_str x needle) l)
  | _ => None
  end.

Definition contains (needle : string) (container : value) : M bool :=
  match membership needle container with
  | Some b => ret b
  | None => raise TypeError "argument is not iterable"
  end.

(** [container[key]] for a str [key]. *)
Definition getitem (container : value) (key : string) : M value :=
  match container with
  | VDict d =>
      match d !! key with
      | Some v => ret v
      | None => raise KeyError key
      end
  | VStr _ => raise TypeError "string indices must be integers"
  | VList _ => raise TypeError "list indices must be integers or slices, not str"
  | _ => raise TypeError "object is not subscriptable"
  end.

(** [obj.get(key, dflt)]: a method of dict only. *)
Definition get_method (obj : value) (key : string) (dflt : value) : M value :=
  match obj with
  | VDict d =>
      match d !! key with
      | Some v => ret v
      | None => ret dflt
      end
  | _ => raise AttributeError "object has no attribute 'get'"
  end.

(** The argument unpacked into keyword arguments: it must be a mapping. *)
Definition kwargs_of (v : value) : M (gmap string value) :=
  match v with
  | VDict d => ret d
  | _ => raise TypeError "argument after ** must be a mapping"
  end.

(** [callable(v)]: functions and classes (instances are taken to have no
    [__call__]). *)
Definition callable (v : value) : bool :=
  match v with
  | VFunction _ | VClass _ => true
  | _ => false
  end.

(** [inspect.isfunction(v)]: Python functions ([def] and [lambda]) only. *)
Definition isfunction (v : value) : bool :=
  match v with
  | VFunction _ => true
  | _ => false
  end.

(** The call of [f] with the keyword arguments [kwargs]. *)
Definition call (f : value) (kwargs : gmap string value) : M value :=
  if callable f then
    do _ <- log (EvCall f kwargs);
    lift (call_behaviour h f kwargs)
  else raise TypeError "object is not callable".

(** [importlib.import_module(name, package=None)]; also the statement
    [import name].  The module object is denoted by its name.  Of
    [sys.modules] the entry of the module named is followed; the entries
    that the import of a dotted name makes for its parent packages are
    not. *)
Definition import_module (name : string) : M string :=
  if PyStr.startswith "." name then
    raise TypeError "the 'package' argument is required to perform a relative import"
  else if String.eqb name "" then raise ValueError "Empty module name"
  else
    do _ <- log (EvImport name);
    fun w =>
      match sys_modules w !! name with
      | Some _ => (Return name, w)
      | None =>
          match module_source h !! name with
          | Some ns => (Return name, World (<[name := ns]> (sys_modules w)) (trace w))
          | None => (Raise (Exn ModuleNotFoundError name), w)
          end
      end.

(** [importlib.reload(module)]: the source is executed again in the
    namespace of the module, which keeps the names not defined anew. *)
Definition reload (name : string) : M string :=
  do _ <- log (EvReload name);
  fun w =>
    match sys_modules w !! name with
    | None => (Raise (Exn ImportError "module not in sys.modules"), w)
    | Some old =>
        match module_source h !! name with
        | Some ns => (Return name, World (<[name := ns ∪ old]> (sys_modules w)) (trace w))
        | None => (Raise (Exn ModuleNotFoundError name), w)
        end
    end.

(** [getattr(module, attr)]. *)
Definition getattr_module (name attr : string) : M value :=
  fun w =>
    match sys_modules w !! name with
    | Some ns =>
        match ns !! attr with
        | Some v => (Return v, w)
        | None => (Raise (Exn AttributeError attr), w)
        end
    | None => (Raise (Exn AttributeError attr), w)
    end.

(** [v.rsplit(sep, 1)]: a method of str. *)
Definition rsplit1 (v : value) (sep : ascii) : M (list string) :=
  match v with
  | VStr s => ret (PyStr.rsplit1 sep s)
  | _ => raise AttributeError "object has no attribute 'rsplit'"
  end.

(** [a, b = l]. *)
Definition unpack2 (l : list string) : M (string * string) :=
  match l with
  | [a; b] => ret (a, b)
  | [] | [_] => raise ValueError "not enough values to unpack (expected 2)"
  | _ => raise ValueError "too many values to unpack (expected 2)"
  end.

(** Floats are IEEE 754 binary64. *)
Definition prec : Z := 53.
Definition emax : Z := 1024.

(** The binary64 nearest to the int [z], ties to even. *)
Definition int_to_float (z : Z) : spec_float :=
  binary_normalize prec emax z 0 false.

(** [float(z)] for an int [z], also the conversion of an int operand of
    a float operation. *)
Definition float_of_int (z : Z) : M spec_float :=
  match int_to_float z with
  | S754_infinity _ => raise OverflowError "int too large to convert to float"
  | f => ret f
  end.

(** [x / y] on floats. *)
Definition truediv (x y : spec_float) : M spec_float :=
  match y with
  | S754_zero _ => raise ZeroDivisionError "float division by zero"
  | _ => ret (SFdiv prec emax x y)
  end.

(** [wave.open(fname, "r")]: the reader of a file it accepts; a file it
    rejects is opened, closed again, and the exception leaves. *)
Definition wave_open (fname : string) : M wave_params :=
  match files h !! fname with
  | Some (WaveFile p) => do _ <- log (EvOpen fname); ret p
  | Some (OtherFile e) =>
      do _ <- log (EvOpen fname);
      do _ <- log (EvClose fname);
      lift (Raise e)
  | None => raise FileNotFoundError fname
  end.

(** [with contextlib.closing(f): body]. *)
Definition closing {A} (fname : string) (body : M A) : M A :=
  try_finally body (log (EvClose fname)).

(** The namespace [import_module] finds under [name]: the copy already in
    [sys.modules], else the one the import system loads. *)
Definition namespace_of (loaded : gmap string (gmap string value)) (name : string)
  : option (gmap string value) :=
  match loaded !! name with
  | Some ns => Some ns
  | None => module_source h !! name
  end.

(** [d[key]] on a typed dict. *)
Definition lookup_key {V} (d : gmap string V) (key : string) : M V :=
  match d !! key with
  | Some v => ret v
  | None => raise KeyError key
  end.

End WithHost.
End Py.

(** ** The module *)

Module utils.
Section WithHost.
Context (h : host).

Definition CACHE_DIR : string :=
  match environ h !! "AUDIOLDM_CACHE_DIR" with
  | Some d => d
  | None => PosixPath.join (home h) ".cache/audioldm2"
  end.

Definition get_duration (fname : string) : M value :=
  do f <- Py.wave_open h fname;
  Py.closing fname (
    let frames := nframes f in
    let rate := framerate f in
    do r <- Py.float_of_int rate;
    do n <- Py.float_of_int frames;
    do q <- Py.truediv n r;
    ret (VFloat q)).

Definition get_bit_depth (fname : string) : M value :=
  do f <- Py.wave_open h fname;
  Py.closing fname (
    let bit_depth := sampwidth f * 8 in
    ret (VInt bit_depth)).

Definition exists_ (x : value) : bool :=
  match x with
  | VNone => false
  | _ => true
  end.

Definition default (val d : value) : M value :=
  if exists_ val then ret val
  else if Py.isfunction d then Py.call h d ∅ else ret d.

Definition get_obj_from_str (string : value) (reload : bool) : M value :=
  do parts <- Py.rsplit1 string "."%char;
  do (module, cls) <- Py.unpack2 parts;
  do _ <- (if reload then
             do module_imp <- Py.import_module h module;
             do _ <- Py.reload h module_imp;
             ret tt
           else ret tt);
  do m <- Py.import_module h module;
  Py.getattr_module m cls.

(** The [except] clause of [instantiate_from_config]: the statement
    [import ipdb], then [ipdb.set_trace()], which arms the debugger and
    returns; the function then ends without a [return].  At this point the
    debugger session opens: when it is resumed the function yields [None],
    when it is quit its exception leaves the function. *)
Definition instantiate_from_config_except : M value :=
  do ipdb <- Py.import_module h "ipdb";
  do set_trace <- Py.getattr_module ipdb "set_trace";
  do _ <- Py.call h set_trace ∅;
  do _ <- lift (debugger_session h set_trace);
  ret VNone.

Definition instantiate_from_config (config : value) : M value :=
  do has_target <- Py.contains "target" config;
  if negb has_target then
    if Py.eq_str config "__is_first_stage__" then ret VNone
    else if Py.eq_str config "__is_unconditional__" then ret VNone
    else raise KeyError "Expected key `target` to instantiate."
  else
    try_except
      (do target <- Py.getitem config "target";
       do ctor <- get_obj_from_str target false;
       do params <- Py.get_method config "params" (VDict ∅);
       do kwargs <- Py.kwargs_of params;
       Py.call h ctor kwargs)
      (fun _ => instantiate_from_config_except).

Definition get_metadata : gmap string (gmap string string) :=
  {[ "audioldm2-full" :=
       {[ "path" := PosixPath.join CACHE_DIR "audioldm2-full.pth";
          "url" := "https://huggingface.co/haoheliu/audioldm2-full/resolve/main/audioldm2-full.pth" ]} ]}.

Definition download_checkpoint (checkpoint_name : string) : M value :=
  let meta := get_metadata in
  do _ <- (if negb (bool_decide (checkpoint_name ∈ dom meta)) then
             log (EvPrint
                    "The model name you provided is not supported. Please use one of the following: "
                    (elements (dom meta)))
           else ret tt);
  let model_id := "haoheliu/" ++ checkpoint_name in
  do entry <- Py.lookup_key meta checkpoint_name;
  do path <- Py.lookup_key entry "path";
  let filename := PosixPath.basename path in
  do entry' <- Py.lookup_key meta checkpoint_name;
  do path' <- Py.lookup_key entry' "path";
  let local_dir := PosixPath.dirname path' in
  do _ <- log (EvHubDownload model_id filename local_dir);
  do _ <- lift (hub_download h model_id filename local_dir);
  ret VNone.

End WithHost.
End utils.

(** ** A sample environment

    A package [a.b] with a class [C] whose constructor takes the keyword [x]
    and a class [Boom] whose constructor raises, the debugger [ipdb], the
    builtin [dict], a function [ten] that returns 10, and two WAV files. *)

Module Sample.

Definition ns_ab : gmap string value :=
  {[ "C" := VClass "a.b.C"; "Boom" := VClass "a.b.Boom" ]}.

Definition ns_ipdb : gmap string value :=
  {[ "set_trace" := VFunction "ipdb.set_trace" ]}.

Definition ns_builtins : gmap string value :=
  {[ "dict" := VClass "builtins.dict" ]}.

Definition behaviour (f : value) (kwargs : gmap string value) : outcome value :=
  match f with
  | VClass n =>
      if String.eqb n "a.b.C" then
        match kwargs !! "x" with
        | Some v =>
            if Nat.eqb (size kwargs) 1 then Return (VInstance "a.b.C" {[ "x" := v ]})
            else Raise (Exn TypeError "unexpected keyword argument")
        | None => Raise (Exn TypeError "missing required argument 'x'")
        end
      else if String.eqb n "a.b.Boom" then Raise (Exn (OtherError "RuntimeError") "boom")
      else if String.eqb n "builtins.dict" then Return (VDict kwargs)
      else Raise (Exn TypeError "unknown class")
  | VFunction n =>
      if String.eqb n "ipdb.set_trace" then Return VNone
      else if String.eqb n "ten" then Return (VInt 10)
      else Raise (Exn TypeError "unknown function")
  | _ => Raise (Exn TypeError "object is not callable")
  end.

Definition tone : wave_params :=
  {| nchannels := 1; sampwidth := 2; framerate := 16000; nframes := 163840 |}.

Definition rate0 : wave_params :=
  {| nchannels := 1; sampwidth := 2; framerate := 0; nframes := 163840 |}.

Definition machine : host :=
  {| module_source :=
       {[ "a.b" := ns_ab; "ipdb" := ns_ipdb; "builtins" := ns_builtins ]};
     call_behaviour := behaviour;
     debugger_session := fun _ => Return tt;
     files := {[ "tone.wav" := WaveFile tone; "rate0.wav" := WaveFile rate0;
                 "notes.txt" :=
                   OtherFile (Exn WaveError "file does not start with RIFF id") ]};
     environ := ∅;
     home := "/home/user";
     hub_download := fun _ filename local_dir => Return (local_dir ++ "/" ++ filename) |}.

Definition boot : world := World ∅ [].

End Sample.

(** ** Text, numbers as text *)

Module PyText.

Definition newline : ascii := "010"%char.

(** [s.lstrip(c)] for a one-character [c]. *)
Fixpoint lstrip (c : ascii) (s : string) : string :=
  match s with
  | EmptyString => EmptyString
  | String a rest => if Ascii.eqb a c then lstrip c rest else s
  end.

(** [s.strip(c)] for a one-character [c]. *)
Definition strip (c : ascii) (s : string) : string :=
  PyStr.rstrip c (lstrip c s).

(** [f.readlines()] on the text [s] of a file: the lines, each with its
    terminating newline, the last one without when the text does not end
    in a newline. *)
Fixpoint readlines (s : string) : list string :=
  match s with
  | EmptyString => []
  | String a rest =>
      if Ascii.eqb a newline then String a EmptyString :: readlines rest
      else
        match readlines rest with
        | [] => [String a EmptyString]
        | line :: lines => String a line :: lines
        end
  end.

(** [s.split(c)[0]]: what precedes the first [c]. *)
Fixpoint split_first (c : ascii) (s : string) : string :=
  match s with
  | EmptyString => EmptyString
  | String a rest => if Ascii.eqb a c then EmptyString else String a (split_first c rest)
  end.

(** [str(n)], also ["%s" % n], for a non-negative int. *)
Definition str_of_nat (n : nat) : string :=
  NilZero.string_of_uint (Nat.to_uint n).

End PyText.

(** ** Text files *)

(** A file opened with [open(fname, "r", encoding="utf-8")] holds a text,
    given with its line ends translated to newlines, or bytes that are not
    UTF-8. *)
Inductive text_file : Type :=
| Text (content : string)
| Undecodable.

Module Files.
Section WithTexts.
Context (texts : gmap string text_file).

Definition open_text (fname : string) : M text_file :=
  match texts !! fname with
  | Some f => do _ <- log (EvOpen fname); ret f
  | None => raise FileNotFoundError fname
  end.

Definition file_readlines (f : text_file) : M (list string) :=
  match f with
  | Text s => ret (PyText.readlines s)
  | Undecodable => raise (OtherError "UnicodeDecodeError") "invalid start byte"
  end.

(** The [for] loop of [read_list]: [result] grows by one stripped line per
    round. *)
Fixpoint read_list_loop (lines result : list string) : list string :=
  match lines with
  | [] => result
  | each :: rest =>
      let each := PyText.strip PyText.newline each in
      read_list_loop rest (result ++ [each])%list
  end.

Definition read_list (fname : string) : M (list string) :=
  let result := [] in
  do f <- open_text fname;
  try_finally
    (do lines <- file_readlines f;
     ret (read_list_loop lines result))
    (log (EvClose fname)).

End WithTexts.

(** What [read_list] makes of a text. *)
Definition stripped_lines (s : string) : list string :=
  map (PyText.strip PyText.newline) (PyText.readlines s).

End Files.

(** ** Saving waveforms *)

(** The argument [name] of [save_wave]: one str for the batch or a list. *)
Inductive name_arg : Type :=
| NameStr (s : string)
| NameList (l : list string).

Inductive wave_event : Type :=
| WavePrint (text : string)
| WaveWrite (path : string) (data : list spec_float) (samplerate : Z).

Module Waves.
Section WithWriter.
(** [sf.write], which may fail. *)
Context (sf_write : string -> list spec_float -> Z -> outcome unit).

(** The first argument of the format [%s_%s.wav]. *)
Definition stem (name : string) : string :=
  if negb (PyStr.contains ".wav" name) then PosixPath.basename name
  else PyText.split_first "." (PosixPath.basename name).

Definition wave_path (savepath name : string) (i : nat) : string :=
  PosixPath.join savepath (stem name ++ "_" ++ PyText.str_of_nat i ++ ".wav").

(** The [for] loop from index [i] on; [rows] is [waveform[i:]], a row being
    the list of its channels.  Each round evaluates [name[i]], prints,
    takes channel 0 of the row and writes it. *)
Fixpoint save_wave_loop (savepath : string) (name : list string)
    (rows : list (list (list spec_float))) (i : nat) : outcome unit * list wave_event :=
  match rows with
  | [] => (Return tt, [])
  | row :: rest =>
      match name !! i with
      | None => (Raise (Exn (OtherError "IndexError") "list index out of range"), [])
      | Some n =>
          let path := wave_path savepath n i in
          let printed := WavePrint ("Save audio to " ++ path) in
          match row with
          | [] =>
              (Raise (Exn (OtherError "IndexError")
                        "index 0 is out of bounds for axis 1 with size 0"),
               [printed])
          | data :: _ =>
              match sf_write path data 16000 with
              | Raise e => (Raise e, [printed; WaveWrite path data 16000])
              | Return _ =>
                  let '(o, evs) := save_wave_loop savepath name rest (S i) in
                  (o, printed :: WaveWrite path data 16000 :: evs)
              end
          end
      end
  end.

Definition save_wave (waveform : list (list (list spec_float))) (savepath : string)
    (name : name_arg) : outcome unit * list wave_event :=
  let name :=
    match name with
    | NameList l => l
    | NameStr s => replicate (length waveform) s
    end in
  save_wave_loop savepath name waveform 0.

(** The paths handed to [sf.write], in order. *)
Definition written (evs : list wave_event) : list string :=
  omap (fun e => match e with WaveWrite path _ _ => Some path | WavePrint _ => None end) evs.

End WithWriter.
End Waves.

(** ** The progress callback *)

Inductive bar_event : Type :=
| BarNew (maxval : Z)
| BarStart
| BarUpdate (value : Z)
| BarFinish.

(** What the module uses of the library [progressbar]: the making of a bar
    with a [maxval], and the methods [start], [update] and [finish] of the
    bar made with [maxval].  Each of them may raise, and what a call does
    may depend on the calls before it: the list [before] holds the calls
    the callback has made so far, oldest first. *)
Record bar_library : Type := BarLibrary {
  bar_new : list bar_event -> Z -> outcome unit;
  bar_start : Z -> list bar_event -> outcome unit;
  bar_update : Z -> list bar_event -> Z -> outcome unit;
  bar_finish : Z -> list bar_event -> outcome unit
}.

Module Progress.

(** The object: [pbar] is [None] or the bar, known by the [maxval] it was
    made with; a bar counts as true. *)
Record MyProgressBar : Type := { pbar : option Z }.

Definition init : MyProgressBar := {| pbar := None |}.

Section WithLibrary.
Context (lib : bar_library).

(** The [if] block of [__call__], after which [self.pbar] is the bar: when
    there is none, one is made, assigned, and started. *)
Definition the_bar (self : MyProgressBar) (before : list bar_event) (total_size : Z)
  : outcome Z * MyProgressBar * list bar_event :=
  match pbar self with
  | Some maxval => (Return maxval, self, [])
  | None =>
      match bar_new lib before total_size with
      | Raise e => (Raise e, self, [BarNew total_size])
      | Return _ =>
          let self := {| pbar := Some total_size |} in
          match bar_start lib total_size (before ++ [BarNew total_size])%list with
          | Raise e => (Raise e, self, [BarNew total_size; BarStart])
          | Return _ => (Return total_size, self, [BarNew total_size; BarStart])
          end
      end
  end.

(** [__call__], after the calls [before]: the outcome, the object, and the
    calls it has added. *)
Definition call (self : MyProgressBar) (before : list bar_event)
    (block_num block_size total_size : Z)
  : outcome unit * MyProgressBar * list bar_event :=
  match the_bar self before total_size with
  | (Raise e, self, made) => (Raise e, self, made)
  | (Return maxval, self, made) =>
      let downloaded := block_num * block_size in
      if downloaded <? total_size
      then (bar_update lib maxval (before ++ made)%list downloaded, self,
            (made ++ [BarUpdate downloaded])%list)
      else (bar_finish lib maxval (before ++ made)%list, self,
            (made ++ [BarFinish])%list)
  end.

(** The callback called on each entry of [reports] in turn, until a call
    raises. *)
Fixpoint calls (self : MyProgressBar) (before : list bar_event)
    (reports : list (Z * Z * Z))
  : outcome unit * MyProgressBar * list bar_event :=
  match reports with
  | [] => (Return tt, self, [])
  | (block_num, block_size, total_size) :: rest =>
      match call self before block_num block_size total_size with
      | (Raise e, self, evs) => (Raise e, self, evs)
      | (Return _, self, evs) =>
          let '(o, self, evs') := calls self (before ++ evs)%list rest in
          (o, self, (evs ++ evs')%list)
      end
  end.

End WithLibrary.
End Progress.

(** ** A second environment

    [sys.modules] holds a copy of [a.b] that is older than the source: its
    [C] is another class, and it has a name [Legacy] the source has lost. *)

Module Stale.

Definition ns_old : gmap string value :=
  {[ "C" := VClass "a.b.OldC"; "Legacy" := VInt 1 ]}.

Definition world0 : world := World {[ "a.b" := ns_old ]} [].

(** The text of a list file: three lines, the second blank, the last
    without newline. *)
Definition names : string :=
  "cat" ++ String PyText.newline (String PyText.newline "dog").

Definition texts : gmap string text_file :=
  {[ "names.lst" := Text names; "binary.lst" := Undecodable ]}.

Definition writer (path : string) (data : list spec_float) (rate : Z) : outcome unit :=
  Return tt.

(** A recording of three seconds: 48000 frames at 16000 Hz. *)
Definition take : wave_params :=
  {| nchannels := 1; sampwidth := 2; framerate := 16000; nframes := 48000 |}.

(** A machine with that recording and with a file cut off inside its
    header. *)
Definition studio : host :=
  {| module_source := ∅;
     call_behaviour := Sample.behaviour;
     debugger_session := fun _ => Return tt;
     files := {[ "take.wav" := WaveFile take;
                 "cut.wav" := OtherFile (Exn (OtherError "EOFError") "") ]};
     environ := {[ "AUDIOLDM_CACHE_DIR" := "/data/ckpt/" ]};
     home := "/root";
     hub_download := fun _ _ _ => Return "" |}.

(** An environment in which no module can be loaded any more. *)
Definition offline : host :=
  {| module_source := ∅;
     call_behaviour := Sample.behaviour;
     debugger_session := fun _ => Return tt;
     files := ∅;
     environ := ∅;
     home := "";
     hub_download := fun _ _ _ => Return "" |}.

(** The sample environment with a user who quits the debugger. *)
Definition impatient : host :=
  {| module_source := module_source Sample.machine;
     call_behaviour := Sample.behaviour;
     debugger_session := fun _ => Raise (Exn (OtherError "bdb.BdbQuit") "");
     files := ∅;
     environ := ∅;
     home := "/home/user";
     hub_download := fun _ _ _ => Return "" |}.

(** A bar library whose calls all return. *)
Definition calm : bar_library :=
  {| bar_new := fun _ _ => Return tt;
     bar_start := fun _ _ => Return tt;
     bar_update := fun _ _ _ => Return tt;
     bar_finish := fun _ _ => Return tt |}.

(** A bar library that refuses to start a bar with a negative [maxval] and
    to update a bar beyond its [maxval]. *)
Definition strict : bar_library :=
  {| bar_new := fun _ _ => Return tt;
     bar_start := fun maxval _ =>
       if maxval <? 0 then Raise (Exn ValueError "max_value out of range")
       else Return tt;
     bar_update := fun maxval _ value =>
       if (value <? 0) || (maxval <? value) then Raise (Exn ValueError "Value out of range")
       else Return tt;
     bar_finish := fun _ _ => Return tt |}.

(** A bar library whose bars can be finished once only. *)
Definition once : bar_library :=
  {| bar_new := fun _ _ => Return tt;
     bar_start := fun _ _ => Return tt;
     bar_update := fun _ _ _ => Return tt;
     bar_finish := fun _ before =>
       if existsb (fun e => match e with BarFinish => true | _ => false end) before
       then Raise (Exn (OtherError "RuntimeError") "bar already finished")
       else Return tt |}.

End Stale.

(** * Properties *)

(** ** Strings *)

Section StringFacts.

Lemma has_char_app c a b :
  PyStr.has_char c (a ++ b) = PyStr.has_char c a || PyStr.has_char c b.
Proof.
  induction a as [|x a IH]; simpl; [reflexivity|].
  rewrite IH. apply orb_assoc.
Qed.

Lemma rcut_None c s : PyStr.rcut c s = None <-> PyStr.has_char c s = false.
Proof.
  induction s as [|a s IH]; simpl; [tauto|].
  destruct (PyStr.rcut c s) as [[pre suf]|].
  - split; [discriminate|]. intros H. apply orb_false_elim in H as [_ H].
    apply IH in H. discriminate.
  - destruct (Ascii.eqb a c); simpl; [split; discriminate|].
    split; intros _; [apply IH|]; reflexivity.
Qed.

(** Cutting at the last separator undoes a concatenation whose right part
    has no separator. *)
Lemma rcut_app c pre suf :
  PyStr.has_char c suf = false ->
  PyStr.rcut c (pre ++ String c suf) = Some (pre, suf).
Proof.
  intros Hsuf. apply rcut_None in Hsuf.
  induction pre as [|a pre IH]; simpl.
  - rewrite Hsuf, Ascii.eqb_refl. reflexivity.
  - rewrite IH. reflexivity.
Qed.

Lemma rcut_Some c s pre suf :
  PyStr.rcut c s = Some (pre, suf) ->
  s = pre ++ String c suf /\ PyStr.has_char c suf = false.
Proof.
  revert pre. induction s as [|a s IH]; simpl; intros pre H; [discriminate|].
  destruct (PyStr.rcut c s) as [[p q]|] eqn:E.
  - inversion H; subst. destruct (IH p eq_refl) as [-> Hq]. split; reflexivity || exact Hq.
  - destruct (Ascii.eqb a c) eqn:Eac; [|discriminate].
    apply Ascii.eqb_eq in Eac. inversion H; subst.
    split; [reflexivity|]. apply rcut_None, E.
Qed.

Lemma startswith_spec p s :
  PyStr.startswith p s = true <-> exists t, s = p ++ t.
Proof.
  revert s. induction p as [|a p IH]; intros s; simpl.
  - split; [intros _; exists s; reflexivity | reflexivity].
  - destruct s as [|b s].
    + split; [discriminate | intros [t Ht]; discriminate].
    + rewrite andb_true_iff, Ascii.eqb_eq, IH. split.
      * intros [-> [t ->]]. exists t. reflexivity.
      * intros [t Ht]. inversion Ht; subst. split; [reflexivity | exists t; reflexivity].
Qed.

(** [PyStr.contains] is the substring relation. *)
Lemma contains_spec sub s :
  PyStr.contains sub s = true <-> exists pre post, s = pre ++ sub ++ post.
Proof.
  induction s as [|a s IH].
  - simpl. rewrite orb_false_r, startswith_spec. split.
    + intros [t Ht]. exists "", t. exact Ht.
    + intros [pre [post H]]. destruct pre; [exists post; exact H | discriminate].
  - cbn [PyStr.contains]. rewrite orb_true_iff, startswith_spec, IH. split.
    + intros [[t Ht] | [pre [post H]]].
      * exists "", t. exact Ht.
      * exists (String a pre), post. simpl. rewrite H. reflexivity.
    + intros [pre [post H]]. destruct pre as [|b pre]; simpl in H.
      * left. exists post. exact H.
      * right. inversion H; subst. exists pre, post. reflexivity.
Qed.

(** Appending text without separator moves the cut into the left part. *)
Lemma rcut_app_l c a b :
  PyStr.has_char c b = false ->
  PyStr.rcut c (a ++ b) =
    match PyStr.rcut c a with
    | Some (pre, suf) => Some (pre, suf ++ b)
    | None => None
    end.
Proof.
  intros Hb. induction a as [|x a IH]; simpl.
  - apply rcut_None, Hb.
  - rewrite IH. destruct (PyStr.rcut c a) as [[pre suf]|]; [reflexivity|].
    destruct (Ascii.eqb x c); reflexivity.
Qed.

Lemma endswith_char_rcut c s :
  PyStr.endswith_char c s = true -> exists pre, PyStr.rcut c s = Some (pre, "").
Proof.
  induction s as [|a s IH]; [discriminate|].
  destruct s as [|b s].
  - simpl. intros ->. exists "". reflexivity.
  - intros H. change (PyStr.endswith_char c (String b s) = true) in H.
    destruct (IH H) as [pre Hpre]. exists (String a pre).
    change (PyStr.rcut c (String a (String b s)))
      with (match PyStr.rcut c (String b s) with
            | Some (pre, suf) => Some (String a pre, suf)
            | None => if Ascii.eqb a c then Some ("", String b s) else None
            end).
    rewrite Hpre. reflexivity.
Qed.

(** [has_char] is the occurrence of the character. *)
Lemma has_char_spec c s :
  PyStr.has_char c s = true <-> exists pre post, s = pre ++ String c post.
Proof.
  induction s as [|a s IH]; simpl.
  - split; [discriminate|]. intros [[|x pre] [post H]]; discriminate.
  - rewrite orb_true_iff, Ascii.eqb_eq, IH. split.
    + intros [-> | [pre [post ->]]].
      * exists "", s. reflexivity.
      * exists (String a pre), post. reflexivity.
    + intros [[|x pre] [post H]]; simpl in H; inversion H; subst.
      * left. reflexivity.
      * right. exists pre, post. reflexivity.
Qed.

End StringFacts.

(** ** [os.path] *)

Section PathFacts.

Lemma no_sep_not_absolute name :
  PyStr.has_char PosixPath.sep name = false -> PyStr.startswith "/" name = false.
Proof.
  destruct name as [|a name]; [reflexivity|].
  cbn [PyStr.has_char PyStr.startswith].
  intros H. apply orb_false_elim in H as [Ha _].
  unfold PosixPath.sep in Ha. rewrite Ascii.eqb_sym, Ha. reflexivity.
Qed.

(** A file name without a slash is the base name of its join with any
    directory. *)
Lemma basename_join dir name :
  PyStr.has_char PosixPath.sep name = false ->
  PosixPath.basename (PosixPath.join dir name) = name.
Proof.
  intros Hname. unfold PosixPath.join, PosixPath.basename.
  rewrite (no_sep_not_absolute _ Hname).
  destruct (String.eqb_spec dir "") as [-> | Hdir]; cbn [orb].
  - apply rcut_None in Hname. change ("" ++ name) with name.
    rewrite Hname. reflexivity.
  - destruct (PyStr.endswith_char PosixPath.sep dir) eqn:E.
    + rewrite (rcut_app_l _ _ _ Hname).
      destruct (endswith_char_rcut _ _ E) as [pre ->]. reflexivity.
    + change (dir ++ "/" ++ name) with (dir ++ String PosixPath.sep name).
      rewrite (rcut_app _ _ _ Hname). reflexivity.
Qed.

End PathFacts.

(** ** The import system *)

Section ImportFacts.
Context (h : host).

Lemma import_module_run w name ns :
  PyStr.startswith "." name = false ->
  name <> "" ->
  Py.namespace_of h (sys_modules w) name = Some ns ->
  Py.import_module h name w =
    (Return name, World (<[name := ns]> (sys_modules w)) (trace w ++ [EvImport name])).
Proof.
  intros Hrel Hne Hns. unfold Py.import_module. rewrite Hrel.
  destruct (String.eqb_spec name "") as [? | _]; [contradiction|].
  unfold bind, log, Py.namespace_of in *. cbn [sys_modules trace].
  destruct (sys_modules w !! name) as [loaded|] eqn:E.
  - inversion Hns; subst. rewrite insert_id by exact E. reflexivity.
  - rewrite Hns. reflexivity.
Qed.

Lemma import_module_missing w name :
  PyStr.startswith "." name = false ->
  name <> "" ->
  Py.namespace_of h (sys_modules w) name = None ->
  Py.import_module h name w =
    (Raise (Exn ModuleNotFoundError name), World (sys_modules w) (trace w ++ [EvImport name])).
Proof.
  intros Hrel Hne Hns. unfold Py.import_module. rewrite Hrel.
  destruct (String.eqb_spec name "") as [? | _]; [contradiction|].
  unfold bind, log, Py.namespace_of in *. cbn [sys_modules trace].
  destruct (sys_modules w !! name); [discriminate|]. rewrite Hns. reflexivity.
Qed.

Lemma getattr_module_run w name ns attr v :
  sys_modules w !! name = Some ns ->
  ns !! attr = Some v ->
  Py.getattr_module name attr w = (Return v, w).
Proof. intros Hm Ha. unfold Py.getattr_module. rewrite Hm, Ha. reflexivity. Qed.

(** The run of [get_obj_from_str] on a well-formed identifier, shared by
    the results on the resolver below. *)
Lemma get_obj_from_str_run w m c ns v :
  PyStr.has_char "." c = false ->
  PyStr.startswith "." m = false ->
  m <> "" ->
  Py.namespace_of h (sys_modules w) m = Some ns ->
  ns !! c = Some v ->
  utils.get_obj_from_str h (VStr (m ++ "." ++ c)) false w =
    (Return v, World (<[m := ns]> (sys_modules w)) (trace w ++ [EvImport m])).
Proof.
  intros Hc Hrel Hne Hns Hv. unfold utils.get_obj_from_str.
  unfold bind at 1. cbn [Py.rsplit1 ret]. unfold PyStr.rsplit1.
  change (m ++ "." ++ c) with (m ++ String "." c). rewrite (rcut_app _ _ _ Hc).
  unfold bind at 1. cbn [Py.unpack2 ret].
  unfold bind at 1. cbn [ret].
  unfold bind. rewrite (import_module_run _ _ _ Hrel Hne Hns).
  apply getattr_module_run with (ns := ns); [|exact Hv].
  cbn [sys_modules]. apply lookup_insert_eq.
Qed.

(** With [reload] set the module is imported, executed again in its own
    namespace and imported once more; the symbol is read from the renewed
    namespace. *)
Lemma get_obj_from_str_reload w m c ns src v :
  PyStr.has_char "." c = false ->
  PyStr.startswith "." m = false ->
  m <> "" ->
  Py.namespace_of h (sys_modules w) m = Some ns ->
  module_source h !! m = Some src ->
  (src ∪ ns) !! c = Some v ->
  utils.get_obj_from_str h (VStr (m ++ "." ++ c)) true w =
    (Return v, World (<[m := src ∪ ns]> (sys_modules w))
                     (trace w ++ [EvImport m; EvReload m; EvImport m])).
Proof.
  intros Hc Hrel Hne Hns Hsrc Hv. unfold utils.get_obj_from_str.
  unfold bind at 1. cbn [Py.rsplit1 ret]. unfold PyStr.rsplit1.
  change (m ++ "." ++ c) with (m ++ String "." c). rewrite (rcut_app _ _ _ Hc).
  unfold bind at 1. cbn [Py.unpack2 ret].
  unfold bind at 1. unfold bind at 1.
  rewrite (import_module_run _ _ _ Hrel Hne Hns).
  unfold bind at 1. unfold Py.reload at 1. unfold bind at 1, log at 1.
  cbn [sys_modules trace]. rewrite lookup_insert_eq, Hsrc, insert_insert_eq.
  cbn [ret].
  unfold bind at 1.
  rewrite (import_module_run (World _ _) m (src ∪ ns) Hrel Hne)
    by (unfold Py.namespace_of; cbn [sys_modules]; rewrite lookup_insert_eq; reflexivity).
  cbn [sys_modules trace]. rewrite insert_insert_eq, <- !app_assoc. cbn [app].
  apply getattr_module_run with (ns := src ∪ ns); [|exact Hv].
  cbn [sys_modules]. apply lookup_insert_eq.
Qed.

Lemma get_obj_from_str_no_separator w s reload :
  PyStr.has_char "." s = false ->
  utils.get_obj_from_str h (VStr s) reload w =
    (Raise (Exn ValueError "not enough values to unpack (expected 2)"), w).
Proof.
  intros Hs. apply rcut_None in Hs. unfold utils.get_obj_from_str.
  unfold bind at 1. cbn [Py.rsplit1 ret]. unfold PyStr.rsplit1. rewrite Hs.
  reflexivity.
Qed.

End ImportFacts.

(** ** The identifier resolver *)

(** C2: an identifier [m.c] whose last component [c] holds no dot is split at
    its last dot; the module [m] is imported (from [sys.modules], else
    loaded and cached) and [get_obj_from_str] returns what the namespace of
    [m] binds to [c].  One import, and nothing else, is observed. *)
Theorem get_obj_from_str_returns_symbol (h : host) (w : world) (m c : string)
    (ns : gmap string value) (v : value) :
  PyStr.has_char "." c = false ->
  PyStr.startswith "." m = false ->
  m <> "" ->
  Py.namespace_of h (sys_modules w) m = Some ns ->
  ns !! c = Some v ->
  PyStr.rsplit1 "." (m ++ "." ++ c) = [m; c] /\
  utils.get_obj_from_str h (VStr (m ++ "." ++ c)) false w =
    (Return v, World (<[m := ns]> (sys_modules w)) (trace w ++ [EvImport m])).
Proof.
  intros Hc Hrel Hne Hns Hv. split.
  - unfold PyStr.rsplit1. change (m ++ "." ++ c) with (m ++ String "." c).
    rewrite (rcut_app _ _ _ Hc). reflexivity.
  - apply get_obj_from_str_run; assumption.
Qed.

Lemma get_obj_from_str_returns_symbol_witness :
  utils.get_obj_from_str Sample.machine (VStr "a.b.C") false Sample.boot =
    (Return (VClass "a.b.C"),
     World {[ "a.b" := Sample.ns_ab ]} [EvImport "a.b"]).
Proof.
  assert (Hc : PyStr.has_char "." "C" = false) by reflexivity.
  assert (Hrel : PyStr.startswith "." "a.b" = false) by reflexivity.
  assert (Hne : "a.b" <> "") by discriminate.
  assert (Hns : Py.namespace_of Sample.machine (sys_modules Sample.boot) "a.b"
                = Some Sample.ns_ab) by reflexivity.
  assert (Hv : Sample.ns_ab !! "C" = Some (VClass "a.b.C")) by reflexivity.
  exact (proj2 (get_obj_from_str_returns_symbol
                  Sample.machine Sample.boot "a.b" "C" Sample.ns_ab (VClass "a.b.C")
                  Hc Hrel Hne Hns Hv)).
Defined.

(** C7: on an identifier without a dot [rsplit] yields one part, the
    unpacking into two names raises [ValueError], and nothing is imported:
    the world is unchanged.  This [ValueError] is the code's form of the
    malformed-identifier failure. *)
Theorem get_obj_from_str_malformed (h : host) (w : world) (s : string) (reload : bool) :
  PyStr.has_char "." s = false ->
  utils.get_obj_from_str h (VStr s) reload w =
    (Raise (Exn ValueError "not enough values to unpack (expected 2)"), w).
Proof. apply get_obj_from_str_no_separator. Qed.

Lemma get_obj_from_str_malformed_witness :
  utils.get_obj_from_str Sample.machine (VStr "LatentDiffusion") true Sample.boot =
    (Raise (Exn ValueError "not enough values to unpack (expected 2)"), Sample.boot).
Proof.
  apply (get_obj_from_str_malformed Sample.machine Sample.boot "LatentDiffusion" true).
  reflexivity.
Defined.

(** ** The config resolver *)

Section ResolverFacts.
Context (h : host).

Lemma eq_str_false config s : config <> VStr s -> Py.eq_str config s = false.
Proof.
  destruct config; try reflexivity. simpl. intros H.
  destruct (String.eqb_spec s0 s) as [-> | ?]; [contradiction | reflexivity].
Qed.

(** On a dict the membership test is the presence of the key. *)
Lemma membership_dict (d : gmap string value) key :
  Py.membership key (VDict d) = Some false <-> d !! key = None.
Proof.
  simpl. destruct (d !! key); split; intros H; try reflexivity; discriminate H.
Qed.

Lemma instantiate_without_target w config :
  Py.membership "target" config = Some false ->
  config <> VStr "__is_first_stage__" ->
  config <> VStr "__is_unconditional__" ->
  utils.instantiate_from_config h config w =
    (Raise (Exn KeyError "Expected key `target` to instantiate."), w).
Proof.
  intros Hmem H1 H2. unfold utils.instantiate_from_config, Py.contains.
  rewrite Hmem. unfold bind, ret. cbn [negb].
  rewrite (eq_str_false _ _ H1), (eq_str_false _ _ H2). reflexivity.
Qed.

(** The run on a node with a resolvable target: the constructor is looked
    up and called on the parameters; its result is returned, and its
    exception, if it raises, is passed to the [except] clause. *)
Lemma instantiate_run w (d : gmap string value) m c ns ctor kwargs :
  d !! "target" = Some (VStr (m ++ "." ++ c)) ->
  PyStr.has_char "." c = false ->
  PyStr.startswith "." m = false ->
  m <> "" ->
  Py.namespace_of h (sys_modules w) m = Some ns ->
  ns !! c = Some ctor ->
  Py.callable ctor = true ->
  (d !! "params" = Some (VDict kwargs) \/ (d !! "params" = None /\ kwargs = ∅)) ->
  utils.instantiate_from_config h (VDict d) w =
    let w' := World (<[m := ns]> (sys_modules w))
                    (trace w ++ [EvImport m; EvCall ctor kwargs]) in
    match call_behaviour h ctor kwargs with
    | Return v => (Return v, w')
    | Raise _ => utils.instantiate_from_config_except h w'
    end.
Proof.
  intros Ht Hc Hrel Hne Hns Hctor Hcall Hparams.
  unfold utils.instantiate_from_config, Py.contains. cbn [Py.membership].
  rewrite Ht. unfold bind at 1. cbn [ret negb].
  unfold try_except. unfold bind at 1. cbn [Py.getitem]. rewrite Ht. cbn [ret].
  unfold bind at 1. rewrite (get_obj_from_str_run h _ _ _ _ _ Hc Hrel Hne Hns Hctor).
  assert (Hget : forall w0, Py.get_method (VDict d) "params" (VDict ∅) w0
                            = (Return (VDict kwargs), w0)).
  { intros w0. cbn [Py.get_method].
    destruct Hparams as [-> | [-> ->]]; reflexivity. }
  unfold bind at 1. rewrite Hget.
  unfold bind at 1. cbn [Py.kwargs_of ret].
  unfold Py.call. rewrite Hcall. unfold bind, log, lift. cbn [sys_modules trace].
  rewrite <- app_assoc. cbn [app].
  destruct (call_behaviour h ctor kwargs); reflexivity.
Qed.

End ResolverFacts.

(** C5: on each of the two sentinel strings the membership test is false (the
    sentinels do not contain [target]), the comparison succeeds and
    [instantiate_from_config] returns [None]; the world is unchanged, so
    nothing was imported, looked up or called. *)
Theorem instantiate_from_config_sentinels (h : host) (w : world) :
  utils.instantiate_from_config h (VStr "__is_first_stage__") w = (Return VNone, w) /\
  utils.instantiate_from_config h (VStr "__is_unconditional__") w = (Return VNone, w).
Proof. split; reflexivity. Qed.

(** C6: an input on which the test [not "target" in config] succeeds (for a
    mapping: the key [target] is absent, see [membership_dict]) and which is
    neither sentinel makes [instantiate_from_config] raise the [KeyError] of
    its guard, the code's form of the missing-target failure; the world is
    unchanged. *)
Theorem instantiate_from_config_missing_target (h : host) (w : world) (config : value) :
  Py.membership "target" config = Some false ->
  config <> VStr "__is_first_stage__" ->
  config <> VStr "__is_unconditional__" ->
  utils.instantiate_from_config h config w =
    (Raise (Exn KeyError "Expected key `target` to instantiate."), w).
Proof. apply instantiate_without_target. Qed.

Lemma instantiate_from_config_missing_target_witness :
  utils.instantiate_from_config Sample.machine
    (VDict {[ "params" := VDict {[ "x" := VInt 1 ]} ]}) Sample.boot =
    (Raise (Exn KeyError "Expected key `target` to instantiate."), Sample.boot).
Proof.
  apply (instantiate_from_config_missing_target Sample.machine Sample.boot
           (VDict {[ "params" := VDict {[ "x" := VInt 1 ]} ]})).
  - reflexivity.
  - discriminate.
  - discriminate.
Defined.

Section ExceptFacts.
Context (h : host).

(** The [except] clause when [ipdb] can be imported and [set_trace]
    returns: the debugger is armed, and its session decides between [None]
    and the exception of a session that was quit. *)
Lemma except_run w nsdb st r :
  Py.namespace_of h (sys_modules w) "ipdb" = Some nsdb ->
  nsdb !! "set_trace" = Some st ->
  Py.callable st = true ->
  call_behaviour h st ∅ = Return r ->
  utils.instantiate_from_config_except h w =
    (match debugger_session h st with
     | Return _ => Return VNone
     | Raise e => Raise e
     end,
     World (<["ipdb" := nsdb]> (sys_modules w))
           (trace w ++ [EvImport "ipdb"; EvCall st ∅])).
Proof.
  intros Hns Hst Hcall Hr. unfold utils.instantiate_from_config_except.
  unfold bind at 1.
  rewrite (import_module_run h w "ipdb" nsdb eq_refl ltac:(discriminate) Hns).
  unfold bind at 1.
  erewrite getattr_module_run;
    [| cbn [sys_modules]; apply lookup_insert_eq | exact Hst].
  unfold Py.call. rewrite Hcall. unfold bind, log, lift, ret.
  cbn [sys_modules trace]. rewrite Hr, <- app_assoc.
  destruct (debugger_session h st); reflexivity.
Qed.

(** A str is never indexed by a str. *)
Lemma getitem_str w s key :
  Py.getitem (VStr s) key w = (Raise (Exn TypeError "string indices must be integers"), w).
Proof. reflexivity. Qed.

Lemma instantiate_str w s :
  utils.instantiate_from_config h (VStr s) w =
    if PyStr.contains "target" s then utils.instantiate_from_config_except h w
    else if (String.eqb s "__is_first_stage__" || String.eqb s "__is_unconditional__")%bool
         then (Return VNone, w)
         else (Raise (Exn KeyError "Expected key `target` to instantiate."), w).
Proof.
  unfold utils.instantiate_from_config, Py.contains. cbn [Py.membership].
  unfold bind at 1. cbn [ret].
  destruct (PyStr.contains "target" s); cbn [negb].
  - reflexivity.
  - cbn [Py.eq_str].
    destruct (String.eqb s "__is_first_stage__"); [reflexivity|].
    destruct (String.eqb s "__is_unconditional__"); reflexivity.
Qed.

End ExceptFacts.

(** C3: on a node whose [target] names a callable [c] of a loadable module
    [m], [instantiate_from_config] resolves the identifier and calls what it
    found with the keyword arguments of [params], or with none when the key
    [params] is absent; when the call returns, its result is the result.
    The trace shows the import and the one call with these arguments. *)
Theorem instantiate_from_config_calls_target (h : host) (w : world)
    (d : gmap string value) (m c : string) (ns : gmap string value)
    (ctor : value) (kwargs : gmap string value) (v : value) :
  d !! "target" = Some (VStr (m ++ "." ++ c)) ->
  PyStr.has_char "." c = false ->
  PyStr.startswith "." m = false ->
  m <> "" ->
  Py.namespace_of h (sys_modules w) m = Some ns ->
  ns !! c = Some ctor ->
  Py.callable ctor = true ->
  (d !! "params" = Some (VDict kwargs) \/ (d !! "params" = None /\ kwargs = ∅)) ->
  call_behaviour h ctor kwargs = Return v ->
  utils.instantiate_from_config h (VDict d) w =
    (Return v, World (<[m := ns]> (sys_modules w))
                     (trace w ++ [EvImport m; EvCall ctor kwargs])).
Proof.
  intros Ht Hc Hrel Hne Hns Hctor Hcall Hparams Hv.
  rewrite (instantiate_run h w d m c ns ctor kwargs) by assumption.
  cbv zeta. rewrite Hv. reflexivity.
Qed.

(** The node [{target: "a.b.C", params: {x: 1}}] yields an instance of
    [a.b.C] whose attribute [x] is 1. *)
Lemma instantiate_from_config_calls_target_witness :
  utils.instantiate_from_config Sample.machine
    (VDict {[ "target" := VStr "a.b.C"; "params" := VDict {[ "x" := VInt 1 ]} ]})
    Sample.boot =
    (Return (VInstance "a.b.C" {[ "x" := VInt 1 ]}),
     World {[ "a.b" := Sample.ns_ab ]}
           [EvImport "a.b"; EvCall (VClass "a.b.C") {[ "x" := VInt 1 ]}]).
Proof.
  apply (instantiate_from_config_calls_target Sample.machine Sample.boot
           {[ "target" := VStr "a.b.C"; "params" := VDict {[ "x" := VInt 1 ]} ]}
           "a.b" "C" Sample.ns_ab (VClass "a.b.C") {[ "x" := VInt 1 ]}
           (VInstance "a.b.C" {[ "x" := VInt 1 ]})).
  - reflexivity.
  - reflexivity.
  - reflexivity.
  - discriminate.
  - reflexivity.
  - reflexivity.
  - reflexivity.
  - left. reflexivity.
  - reflexivity.
Defined.

(** When [params] is absent the constructor is called without arguments. *)
Example instantiate_without_params :
  utils.instantiate_from_config Sample.machine
    (VDict {[ "target" := VStr "builtins.dict" ]}) Sample.boot =
    (Return (VDict ∅),
     World {[ "builtins" := Sample.ns_builtins ]}
           [EvImport "builtins"; EvCall (VClass "builtins.dict") ∅]).
Proof. vm_compute. reflexivity. Qed.

(** C1, as the code has it: when the constructor raises, the bare [except]
    clause catches the exception, imports [ipdb] and calls
    [ipdb.set_trace()], which arms the debugger; the session opens as
    [instantiate_from_config] returns.  When the session is resumed the
    caller gets [None]; when it is quit, or its input has ended, the
    exception of the session leaves the function.  In neither case does the
    caller see the exception of the constructor, and the trace records the
    call that armed the debugger. *)
Theorem instantiate_from_config_failure_enters_debugger (h : host) (w : world)
    (d : gmap string value) (m c : string) (ns : gmap string value)
    (ctor : value) (kwargs : gmap string value) (e : exn)
    (nsdb : gmap string value) (st r : value) :
  d !! "target" = Some (VStr (m ++ "." ++ c)) ->
  PyStr.has_char "." c = false ->
  PyStr.startswith "." m = false ->
  m <> "" ->
  Py.namespace_of h (sys_modules w) m = Some ns ->
  ns !! c = Some ctor ->
  Py.callable ctor = true ->
  (d !! "params" = Some (VDict kwargs) \/ (d !! "params" = None /\ kwargs = ∅)) ->
  call_behaviour h ctor kwargs = Raise e ->
  Py.namespace_of h (<[m := ns]> (sys_modules w)) "ipdb" = Some nsdb ->
  nsdb !! "set_trace" = Some st ->
  Py.callable st = true ->
  call_behaviour h st ∅ = Return r ->
  utils.instantiate_from_config h (VDict d) w =
    (match debugger_session h st with
     | Return _ => Return VNone
     | Raise quit => Raise quit
     end,
     World (<["ipdb" := nsdb]> (<[m := ns]> (sys_modules w)))
           (trace w ++ [EvImport m; EvCall ctor kwargs;
                        EvImport "ipdb"; EvCall st ∅])).
Proof.
  intros Ht Hc Hrel Hne Hns Hctor Hcall Hparams He Hdb Hst Hstc Hr.
  rewrite (instantiate_run h w d m c ns ctor kwargs) by assumption.
  cbv zeta. rewrite He.
  rewrite (except_run h (World (<[m := ns]> (sys_modules w)) _) nsdb st r Hdb Hst Hstc Hr).
  cbn [sys_modules trace]. rewrite <- app_assoc. reflexivity.
Qed.

Lemma instantiate_from_config_failure_enters_debugger_witness :
  utils.instantiate_from_config Sample.machine
    (VDict {[ "target" := VStr "a.b.Boom" ]}) Sample.boot =
    (Return VNone,
     World (<["ipdb" := Sample.ns_ipdb]> (<["a.b" := Sample.ns_ab]> ∅))
           [EvImport "a.b"; EvCall (VClass "a.b.Boom") ∅;
            EvImport "ipdb"; EvCall (VFunction "ipdb.set_trace") ∅]).
Proof.
  apply (instantiate_from_config_failure_enters_debugger Sample.machine Sample.boot
           {[ "target" := VStr "a.b.Boom" ]} "a.b" "Boom" Sample.ns_ab
           (VClass "a.b.Boom") ∅ (Exn (OtherError "RuntimeError") "boom")
           Sample.ns_ipdb (VFunction "ipdb.set_trace") VNone).
  - reflexivity.
  - reflexivity.
  - reflexivity.
  - discriminate.
  - reflexivity.
  - reflexivity.
  - reflexivity.
  - right. split; reflexivity.
  - reflexivity.
  - reflexivity.
  - reflexivity.
  - reflexivity.
  - reflexivity.
Defined.

(** With a user who quits the session the caller gets [bdb.BdbQuit], not
    the [RuntimeError] of the constructor. *)
Example instantiate_from_config_session_quit :
  utils.instantiate_from_config Stale.impatient
    (VDict {[ "target" := VStr "a.b.Boom" ]}) Sample.boot =
    (Raise (Exn (OtherError "bdb.BdbQuit") ""),
     World (<["ipdb" := Sample.ns_ipdb]> (<["a.b" := Sample.ns_ab]> ∅))
           [EvImport "a.b"; EvCall (VClass "a.b.Boom") ∅;
            EvImport "ipdb"; EvCall (VFunction "ipdb.set_trace") ∅]).
Proof. vm_compute. reflexivity. Qed.

(** C1, as the spec has it, fails: the constructor of [a.b.Boom] raises, yet
    the caller of [instantiate_from_config], with a debugger session that
    is resumed, gets the value [None] and no error, and [ipdb.set_trace]
    has been called. *)
Lemma instantiate_from_config_failure_not_surfaced :
  let run := utils.instantiate_from_config Sample.machine
               (VDict {[ "target" := VStr "a.b.Boom" ]}) Sample.boot in
  call_behaviour Sample.machine (VClass "a.b.Boom") ∅
    = Raise (Exn (OtherError "RuntimeError") "boom") /\
  fst run = Return VNone /\
  (forall e, fst run <> Raise e) /\
  trace (snd run) = [EvImport "a.b"; EvCall (VClass "a.b.Boom") ∅;
                     EvImport "ipdb"; EvCall (VFunction "ipdb.set_trace") ∅].
Proof.
  cbv zeta. split; [reflexivity|]. split; [reflexivity|]. split.
  - intros e. vm_compute. discriminate.
  - reflexivity.
Qed.

(** C9: on a str the test for the key [target] is the substring test.  A
    str that contains [target] passes the guard and is indexed with
    ["target"], which raises [TypeError] inside the [try], so that the run
    continues in the [except] clause; a str that does not contain it yields
    [None] when it is a sentinel and the [KeyError] of the guard
    otherwise. *)
Theorem instantiate_from_config_on_str (h : host) (w : world) (s : string) :
  (PyStr.contains "target" s = true <-> exists pre post, s = pre ++ "target" ++ post) /\
  Py.membership "target" (VStr s) = Some (PyStr.contains "target" s) /\
  Py.getitem (VStr s) "target" w =
    (Raise (Exn TypeError "string indices must be integers"), w) /\
  utils.instantiate_from_config h (VStr s) w =
    if PyStr.contains "target" s then utils.instantiate_from_config_except h w
    else if (String.eqb s "__is_first_stage__" || String.eqb s "__is_unconditional__")%bool
         then (Return VNone, w)
         else (Raise (Exn KeyError "Expected key `target` to instantiate."), w).
Proof.
  split; [apply contains_spec|]. split; [reflexivity|]. split; [reflexivity|].
  apply instantiate_str.
Qed.

(** A str that merely mentions [target] ends in the debugger, not in the
    [KeyError]. *)
Example instantiate_str_with_target :
  utils.instantiate_from_config Sample.machine (VStr "no_target_here") Sample.boot =
    (Return VNone,
     World {[ "ipdb" := Sample.ns_ipdb ]}
           [EvImport "ipdb"; EvCall (VFunction "ipdb.set_trace") ∅]).
Proof. vm_compute. reflexivity. Qed.

Example instantiate_str_without_target :
  utils.instantiate_from_config Sample.machine (VStr "__is_last_stage__") Sample.boot =
    (Raise (Exn KeyError "Expected key `target` to instantiate."), Sample.boot).
Proof. reflexivity. Qed.

(** ** The value-default helper *)

(** C4, as the code has it: [default] returns [val] when it is not [None],
    without a call; on [None] it calls [d] once, without arguments, and
    returns the result when [d] is a Python function in the sense of
    [inspect.isfunction]; every other [d], plain value or callable alike, is
    returned as it is. *)
Theorem default_value_or_fallback (h : host) (w : world) (val d : value) :
  (val <> VNone -> utils.default h val d w = (Return val, w)) /\
  (Py.isfunction d = true ->
     utils.default h VNone d w =
       (call_behaviour h d ∅, World (sys_modules w) (trace w ++ [EvCall d ∅]))) /\
  (Py.isfunction d = false -> utils.default h VNone d w = (Return d, w)).
Proof.
  unfold utils.default. repeat split.
  - intros Hval. destruct val; try reflexivity. contradiction.
  - intros Hfun. cbn [utils.exists_]. rewrite Hfun.
    destruct d; try discriminate Hfun. reflexivity.
  - intros Hfun. cbn [utils.exists_]. rewrite Hfun. reflexivity.
Qed.

(** The three uses of the helper the spec lists. *)
Lemma default_value_or_fallback_witness :
  utils.default Sample.machine (VInt 5) (VInt 10) Sample.boot
    = (Return (VInt 5), Sample.boot) /\
  utils.default Sample.machine VNone (VInt 10) Sample.boot
    = (Return (VInt 10), Sample.boot) /\
  utils.default Sample.machine VNone (VFunction "ten") Sample.boot
    = (Return (VInt 10), World ∅ [EvCall (VFunction "ten") ∅]).
Proof.
  split; [|split].
  - apply (proj1 (default_value_or_fallback Sample.machine Sample.boot (VInt 5) (VInt 10))).
    discriminate.
  - apply (proj2 (proj2 (default_value_or_fallback Sample.machine Sample.boot VNone (VInt 10)))).
    reflexivity.
  - apply (proj1 (proj2 (default_value_or_fallback Sample.machine Sample.boot
                           VNone (VFunction "ten")))).
    reflexivity.
Defined.

(** C4, as the spec has it, fails on a callable default that is not a Python
    function: the class [dict] can be called without arguments and then
    produces the empty dict, but [default] returns the class itself and the
    trace shows no call. *)
Lemma default_callable_not_invoked :
  let run := utils.default Sample.machine VNone (VClass "builtins.dict") Sample.boot in
  Py.callable (VClass "builtins.dict") = true /\
  call_behaviour Sample.machine (VClass "builtins.dict") ∅ = Return (VDict ∅) /\
  fst run = Return (VClass "builtins.dict") /\
  fst run <> Return (VDict ∅) /\
  trace (snd run) = [].
Proof.
  cbv zeta. repeat split; try reflexivity. vm_compute. discriminate.
Qed.

(** ** Checkpoints *)

Section CheckpointFacts.
Context (h : host).

Lemma get_metadata_lookup name :
  utils.get_metadata h !! name = None <-> name <> "audioldm2-full".
Proof.
  unfold utils.get_metadata. rewrite lookup_singleton_None. split; congruence.
Qed.

Lemma get_metadata_keys :
  elements (dom (utils.get_metadata h)) = ["audioldm2-full"].
Proof.
  unfold utils.get_metadata. rewrite dom_singleton_L. apply elements_singleton.
Qed.

Lemma download_checkpoint_run w name :
  utils.download_checkpoint h name w =
    match utils.get_metadata h !! name with
    | None =>
        (Raise (Exn KeyError name),
         World (sys_modules w)
               (trace w ++ [EvPrint
                  "The model name you provided is not supported. Please use one of the following: "
                  ["audioldm2-full"]]))
    | Some _ =>
        let local_dir :=
          PosixPath.dirname (PosixPath.join (utils.CACHE_DIR h) "audioldm2-full.pth") in
        (match hub_download h ("haoheliu/" ++ name) "audioldm2-full.pth" local_dir with
         | Return _ => Return VNone
         | Raise e => Raise e
         end,
         World (sys_modules w)
               (trace w ++ [EvHubDownload ("haoheliu/" ++ name) "audioldm2-full.pth" local_dir]))
    end.
Proof.
  unfold utils.download_checkpoint. cbv zeta. rewrite get_metadata_keys.
  destruct (utils.get_metadata h !! name) as [entry|] eqn:E.
  - assert (Hin : name ∈ dom (utils.get_metadata h)).
    { apply elem_of_dom. rewrite E. eauto. }
    rewrite (bool_decide_eq_true_2 _ Hin). cbn [negb].
    unfold bind at 1. cbn [ret].
    unfold Py.lookup_key. rewrite E.
    unfold utils.get_metadata in E.
    apply lookup_singleton_Some in E as [<- <-].
    unfold bind at 1. cbn [ret].
    rewrite lookup_insert_eq.
    unfold bind at 1. cbn [ret].
    unfold bind at 1. cbn [ret].
    rewrite lookup_insert_eq.
    unfold bind at 1. cbn [ret].
    rewrite (basename_join _ "audioldm2-full.pth" eq_refl).
    unfold bind, ret, log, lift. cbn [sys_modules trace].
    destruct (hub_download h _ _ _); reflexivity.
  - assert (Hin : name ∉ dom (utils.get_metadata h)).
    { apply not_elem_of_dom. exact E. }
    rewrite (bool_decide_eq_false_2 _ Hin). cbn [negb].
    unfold Py.lookup_key. rewrite E. reflexivity.
Qed.

End CheckpointFacts.

(** C10: the names of the metadata table are [audioldm2-full] alone.  On any
    other name [download_checkpoint] prints its message and goes on; the
    lookup of the name in the table, made while the arguments of
    [hf_hub_download] are evaluated, raises [KeyError], and the trace holds
    the print and no download.  On a name of the table nothing is printed
    and the one download is requested. *)
Theorem download_checkpoint_unsupported_name (h : host) (w : world) (name : string) :
  (utils.get_metadata h !! name = None <-> name <> "audioldm2-full") /\
  utils.download_checkpoint h name w =
    match utils.get_metadata h !! name with
    | None =>
        (Raise (Exn KeyError name),
         World (sys_modules w)
               (trace w ++ [EvPrint
                  "The model name you provided is not supported. Please use one of the following: "
                  ["audioldm2-full"]]))
    | Some _ =>
        let local_dir :=
          PosixPath.dirname (PosixPath.join (utils.CACHE_DIR h) "audioldm2-full.pth") in
        (match hub_download h ("haoheliu/" ++ name) "audioldm2-full.pth" local_dir with
         | Return _ => Return VNone
         | Raise e => Raise e
         end,
         World (sys_modules w)
               (trace w ++ [EvHubDownload ("haoheliu/" ++ name) "audioldm2-full.pth" local_dir]))
    end.
Proof. split; [apply get_metadata_lookup | apply download_checkpoint_run]. Qed.

Example download_checkpoint_unknown :
  utils.download_checkpoint Sample.machine "audioldm-s-full" Sample.boot =
    (Raise (Exn KeyError "audioldm-s-full"),
     World ∅ [EvPrint
       "The model name you provided is not supported. Please use one of the following: "
       ["audioldm2-full"]]).
Proof. vm_compute. reflexivity. Qed.

Example download_checkpoint_known :
  utils.download_checkpoint Sample.machine "audioldm2-full" Sample.boot =
    (Return VNone,
     World ∅ [EvHubDownload "haoheliu/audioldm2-full" "audioldm2-full.pth"
                "/home/user/.cache/audioldm2"]).
Proof. vm_compute. reflexivity. Qed.

(** ** WAV inspection *)

Section FloatFacts.

Lemma digits2_pos_iter_xO p k :
  digits2_pos (Pos.iter xO p k) = (digits2_pos p + k)%positive.
Proof.
  induction k as [|k IH] using Pos.peano_ind.
  - simpl. lia.
  - rewrite Pos.iter_succ. simpl. rewrite IH. lia.
Qed.

Lemma pos_iter_xO_value p k : Z.pos (Pos.iter xO p k) = Z.pos p * 2 ^ Z.pos k.
Proof.
  induction k as [|k IH] using Pos.peano_ind.
  - simpl. lia.
  - rewrite Pos.iter_succ, Pos2Z.inj_xO, IH, Pos2Z.inj_succ, Z.pow_succ_r by lia. lia.
Qed.

Lemma digits2_pos_lower p : 2 ^ (Z.pos (digits2_pos p) - 1) <= Z.pos p.
Proof.
  induction p as [p IH | p IH |]; simpl digits2_pos;
    [rewrite Pos2Z.inj_succ;
     replace (Z.succ (Z.pos (digits2_pos p)) - 1)
       with (Z.succ (Z.pos (digits2_pos p) - 1)) by lia;
     rewrite Z.pow_succ_r by lia; lia .. |].
  simpl. lia.
Qed.

Lemma digits2_pos_bound p n :
  0 <= n -> Z.pos p < 2 ^ n -> Z.pos (digits2_pos p) <= n.
Proof.
  intros Hn Hp.
  destruct (Z.le_gt_cases (Z.pos (digits2_pos p)) n) as [H|H]; [exact H|].
  exfalso. assert (H1 := digits2_pos_lower p).
  assert (2 ^ n <= 2 ^ (Z.pos (digits2_pos p) - 1)) by (apply Z.pow_le_mono_r; lia).
  lia.
Qed.

(** A positive int of at most 53 bits converts to a finite float of the
    same value: no rounding, no overflow, never zero. *)
Lemma int_to_float_exact z :
  0 < z < 2 ^ 53 ->
  exists m e, Py.int_to_float z = S754_finite false m e /\
              e <= 0 /\ Z.pos m = z * 2 ^ (- e).
Proof.
  intros [Hpos Hlt]. destruct z as [|p|p]; try lia.
  assert (Hd := digits2_pos_bound p 53 ltac:(lia) Hlt).
  unfold Py.int_to_float, Py.prec, Py.emax, binary_normalize, binary_round.
  set (d := digits2_pos p) in *.
  assert (Hfexp : fexp 53 1024 (Z.pos d + 0) = Z.pos d - 53).
  { unfold fexp, emin. lia. }
  rewrite Hfexp. unfold shl_align.
  destruct (Z.pos d - 53 - 0) as [|q|q] eqn:Eq; try lia.
  - unfold binary_round_aux, shr_fexp. cbn [Zdigits2 shr_record_of_loc]. fold d.
    replace (fexp 53 1024 (Z.pos d + 0) - 0) with 0 by (unfold fexp, emin; lia).
    cbn [shr shr_m loc_of_shr_record round_nearest_even Zdigits2 shr_record_of_loc].
    fold d.
    replace (fexp 53 1024 (Z.pos d + 0) - 0) with 0 by (unfold fexp, emin; lia).
    cbn [shr shr_m].
    replace (0 <=? 1024 - 53) with true by reflexivity.
    exists p, 0. repeat split; lia.
  - unfold binary_round_aux, shr_fexp. cbn [Zdigits2 shr_record_of_loc].
    rewrite digits2_pos_iter_xO. fold d.
    replace (fexp 53 1024 (Z.pos (d + q) + (Z.pos d - 53)) - (Z.pos d - 53)) with 0
      by (unfold fexp, emin; lia).
    cbn [shr shr_m loc_of_shr_record round_nearest_even Zdigits2 shr_record_of_loc].
    rewrite digits2_pos_iter_xO. fold d.
    replace (fexp 53 1024 (Z.pos (d + q) + (Z.pos d - 53)) - (Z.pos d - 53)) with 0
      by (unfold fexp, emin; lia).
    cbn [shr shr_m].
    replace (Z.pos d - 53 <=? 1024 - 53) with true by (symmetry; apply Z.leb_le; lia).
    exists (Pos.iter xO p q), (Z.pos d - 53). split; [reflexivity|]. split; [lia|].
    rewrite pos_iter_xO_value. f_equal. f_equal. lia.
Qed.

Lemma float_of_int_run w z :
  0 <= z < 2 ^ 53 ->
  Py.float_of_int z w = (Return (Py.int_to_float z), w).
Proof.
  intros [H0 Hlt]. unfold Py.float_of_int.
  destruct (Z.eq_dec z 0) as [-> | Hz]; [reflexivity|].
  destruct (int_to_float_exact z ltac:(lia)) as (m & e & -> & _). reflexivity.
Qed.

Lemma truediv_run w x z :
  0 < z < 2 ^ 53 ->
  Py.truediv x (Py.int_to_float z) w =
    (Return (SFdiv Py.prec Py.emax x (Py.int_to_float z)), w).
Proof.
  intros Hz. unfold Py.truediv.
  destruct (int_to_float_exact z Hz) as (m & e & -> & _). reflexivity.
Qed.

End FloatFacts.

Section WavFacts.
Context (h : host).

Lemma wave_open_run w fname p :
  files h !! fname = Some (WaveFile p) ->
  Py.wave_open h fname w =
    (Return p, World (sys_modules w) (trace w ++ [EvOpen fname])).
Proof. intros H. unfold Py.wave_open. rewrite H. reflexivity. Qed.

(** A body that returns without touching the world, run under
    [contextlib.closing]. *)
Lemma closing_run {A} w fname (body : M A) (a : A) :
  body w = (Return a, w) ->
  Py.closing fname body w =
    (Return a, World (sys_modules w) (trace w ++ [EvClose fname])).
Proof. intros H. unfold Py.closing, try_finally. rewrite H. reflexivity. Qed.

End WavFacts.

(** C8: on a PCM WAV file whose header holds a frame count and a non-zero
    sample rate, both 32-bit fields, [get_duration] returns the binary64
    quotient of the frame count by the sample rate, each converted to
    float without rounding, and [get_bit_depth] returns the sample width in
    bytes times 8; each opens the file and closes it again. *)
Theorem wav_duration_and_bit_depth (h : host) (w : world) (fname : string)
    (p : wave_params) :
  files h !! fname = Some (WaveFile p) ->
  0 <= nframes p < 2 ^ 32 ->
  0 < framerate p < 2 ^ 32 ->
  utils.get_duration h fname w =
    (Return (VFloat (SFdiv Py.prec Py.emax
                       (Py.int_to_float (nframes p)) (Py.int_to_float (framerate p)))),
     World (sys_modules w) (trace w ++ [EvOpen fname; EvClose fname])) /\
  utils.get_bit_depth h fname w =
    (Return (VInt (sampwidth p * 8)),
     World (sys_modules w) (trace w ++ [EvOpen fname; EvClose fname])).
Proof.
  intros Hfile Hframes Hrate. split.
  - unfold utils.get_duration. unfold bind at 1.
    rewrite (wave_open_run h w fname p Hfile). cbv zeta.
    erewrite closing_run.
    + cbn [sys_modules trace]. rewrite <- app_assoc. reflexivity.
    + unfold bind at 1. rewrite float_of_int_run by lia.
      unfold bind at 1. rewrite float_of_int_run by lia.
      unfold bind at 1. rewrite truediv_run by lia. reflexivity.
  - unfold utils.get_bit_depth. unfold bind at 1.
    rewrite (wave_open_run h w fname p Hfile). cbv zeta.
    erewrite closing_run by reflexivity.
    cbn [sys_modules trace]. rewrite <- app_assoc. reflexivity.
Qed.

(** A file of 163840 frames at 16000 Hz with 2-byte samples lasts 10.24
    seconds (the float 5764607523034235 * 2^-49) and has 16 bits. *)
Lemma wav_duration_and_bit_depth_witness :
  utils.get_duration Sample.machine "tone.wav" Sample.boot =
    (Return (VFloat (S754_finite false 5764607523034235 (-49))),
     World ∅ [EvOpen "tone.wav"; EvClose "tone.wav"]) /\
  utils.get_bit_depth Sample.machine "tone.wav" Sample.boot =
    (Return (VInt 16), World ∅ [EvOpen "tone.wav"; EvClose "tone.wav"]).
Proof.
  apply (wav_duration_and_bit_depth Sample.machine Sample.boot "tone.wav" Sample.tone).
  - reflexivity.
  - simpl. lia.
  - simpl. lia.
Defined.

(** A header with sample rate 0 is outside the theorem: the division
    raises, after which the file is still closed. *)
Example get_duration_rate0 :
  utils.get_duration Sample.machine "rate0.wav" Sample.boot =
    (Raise (Exn ZeroDivisionError "float division by zero"),
     World ∅ [EvOpen "rate0.wav"; EvClose "rate0.wav"]).
Proof. vm_compute. reflexivity. Qed.

Example get_duration_not_wave :
  utils.get_duration Sample.machine "notes.txt" Sample.boot =
    (Raise (Exn WaveError "file does not start with RIFF id"),
     World ∅ [EvOpen "notes.txt"; EvClose "notes.txt"]).
Proof. vm_compute. reflexivity. Qed.

(** * Further properties *)

(** ** Stripping and splitting *)

Section TextFacts.

Lemma rstrip_id c s : PyStr.has_char c s = false -> PyStr.rstrip c s = s.
Proof.
  induction s as [|a s IH]; [reflexivity|]. simpl.
  intros H. apply orb_false_elim in H as [Ha Hs]. rewrite (IH Hs), Ha.
  destruct s; reflexivity.
Qed.

Lemma rstrip_app_sep c s : PyStr.rstrip c (s ++ String c "") = PyStr.rstrip c s.
Proof.
  induction s as [|a s IH]; simpl.
  - rewrite Ascii.eqb_refl. reflexivity.
  - rewrite IH. reflexivity.
Qed.

Lemma lstrip_id c s : PyStr.startswith (String c "") s = false -> PyText.lstrip c s = s.
Proof.
  destruct s as [|a s]; [reflexivity|]. simpl. rewrite Ascii.eqb_sym.
  destruct (Ascii.eqb a c); [discriminate | reflexivity].
Qed.

(** Stripping a line gives its body, whether the line has its newline or
    not. *)
Lemma strip_body c body :
  PyStr.has_char c body = false ->
  PyText.strip c (body ++ String c "") = body /\ PyText.strip c body = body.
Proof.
  intros H. unfold PyText.strip. destruct body as [|a body].
  - simpl. rewrite Ascii.eqb_refl. split; reflexivity.
  - simpl in H. apply orb_false_elim in H as [Ha Hb].
    assert (Hl : forall t, PyText.lstrip c (String a body ++ t) = String a body ++ t)
      by (intros t; simpl; rewrite Ha; reflexivity).
    assert (Hab : PyStr.has_char c (String a body) = false)
      by (simpl; rewrite Ha, Hb; reflexivity).
    split.
    + rewrite Hl, rstrip_app_sep. apply rstrip_id, Hab.
    + assert (Hl' : PyText.lstrip c (String a body) = String a body)
        by (simpl; rewrite Ha; reflexivity).
      rewrite Hl'. apply rstrip_id, Hab.
Qed.

Lemma readlines_nil s : PyText.readlines s = [] <-> s = "".
Proof.
  destruct s as [|a s]; [tauto|]. simpl.
  destruct (Ascii.eqb a PyText.newline); [split; discriminate|].
  destruct (PyText.readlines s); split; discriminate.
Qed.

(** The first line [readlines] returns: a body without newline, followed by
    a newline, or else standing alone as the last line. *)
Lemma readlines_head s line lines :
  PyText.readlines s = line :: lines ->
  exists body, PyStr.has_char PyText.newline body = false /\
    (line = body ++ String PyText.newline "" \/ (line = body /\ lines = [])).
Proof.
  revert line lines. induction s as [|a s IH]; intros line lines; [discriminate|].
  simpl. destruct (Ascii.eqb a PyText.newline) eqn:Ea.
  - intros H. inversion H; subst. apply Ascii.eqb_eq in Ea. subst a.
    exists "". split; [reflexivity | left; reflexivity].
  - destruct (PyText.readlines s) as [|l ls] eqn:E.
    + intros H. inversion H; subst. exists (String a "").
      split; [simpl; rewrite Ea; reflexivity | right; split; reflexivity].
    + intros H. inversion H; subst.
      destruct (IH l lines eq_refl) as [body [Hb Hshape]].
      exists (String a body). split; [simpl; rewrite Ea, Hb; reflexivity|].
      destruct Hshape as [-> | [-> ->]]; [left | right; split]; reflexivity.
Qed.

Lemma stripped_lines_newline rest :
  Files.stripped_lines (String PyText.newline rest) = "" :: Files.stripped_lines rest.
Proof. reflexivity. Qed.

Lemma stripped_lines_char a rest :
  Ascii.eqb a PyText.newline = false ->
  Files.stripped_lines (String a rest) =
    match Files.stripped_lines rest with
    | [] => [String a ""]
    | body :: bodies => String a body :: bodies
    end.
Proof.
  intros Ea. unfold Files.stripped_lines. cbn [PyText.readlines]. rewrite Ea.
  destruct (PyText.readlines rest) as [|l ls] eqn:E; cbn [map].
  - unfold PyText.strip. cbn [PyText.lstrip]. rewrite Ea. simpl. rewrite Ea. reflexivity.
  - f_equal. destruct (readlines_head rest l ls E) as [body [Hb Hshape]].
    assert (Hab : PyStr.has_char PyText.newline (String a body) = false)
      by (simpl; rewrite Ea, Hb; reflexivity).
    destruct Hshape as [-> | [-> _]].
    + rewrite (proj1 (strip_body _ body Hb)).
      apply (proj1 (strip_body _ (String a body) Hab)).
    + rewrite (proj2 (strip_body _ body Hb)).
      apply (proj2 (strip_body _ (String a body) Hab)).
Qed.

Lemma stripped_lines_nil s : Files.stripped_lines s = [] <-> s = "".
Proof.
  unfold Files.stripped_lines. rewrite <- readlines_nil.
  destruct (PyText.readlines s); split; (reflexivity || discriminate).
Qed.

Lemma stripped_lines_clean s :
  Forall (fun line => PyStr.has_char PyText.newline line = false) (Files.stripped_lines s).
Proof.
  induction s as [|a s IH]; [constructor|].
  destruct (Ascii.eqb a PyText.newline) eqn:Ea.
  - apply Ascii.eqb_eq in Ea. subst a. rewrite stripped_lines_newline.
    constructor; [reflexivity | exact IH].
  - rewrite (stripped_lines_char _ _ Ea).
    destruct (Files.stripped_lines s) as [|b bs].
    + constructor; [simpl; rewrite Ea; reflexivity | constructor].
    + inversion IH; subst. constructor; [simpl; rewrite Ea; assumption | assumption].
Qed.

Lemma endswith_char_cons c a s :
  s <> "" -> PyStr.endswith_char c (String a s) = PyStr.endswith_char c s.
Proof. destruct s; [congruence | reflexivity]. Qed.

Lemma concat_cons_char sep a body bodies :
  String.concat sep (String a body :: bodies) = String a (String.concat sep (body :: bodies)).
Proof. destruct bodies; reflexivity. Qed.

(** Joining the stripped lines with newlines gives the text back, up to
    its last newline. *)
Lemma stripped_lines_join s :
  String.concat (String PyText.newline "") (Files.stripped_lines s) ++
    (if PyStr.endswith_char PyText.newline s then String PyText.newline "" else "") = s.
Proof.
  induction s as [|a s IH]; [reflexivity|].
  destruct (string_dec s "") as [-> | Hs].
  - destruct (Ascii.eqb a PyText.newline) eqn:Ea.
    + apply Ascii.eqb_eq in Ea. subst a. reflexivity.
    + rewrite (stripped_lines_char _ _ Ea). simpl. rewrite Ea. reflexivity.
  - rewrite (endswith_char_cons _ _ _ Hs).
    destruct (Ascii.eqb a PyText.newline) eqn:Ea.
    + apply Ascii.eqb_eq in Ea. subst a. rewrite stripped_lines_newline.
      destruct (Files.stripped_lines s) as [|b bs] eqn:E.
      * apply stripped_lines_nil in E. contradiction.
      * change (String.concat (String PyText.newline "") ("" :: b :: bs))
          with (String PyText.newline (String.concat (String PyText.newline "") (b :: bs))).
        apply (f_equal (String PyText.newline)) in IH. exact IH.
    + rewrite (stripped_lines_char _ _ Ea).
      destruct (Files.stripped_lines s) as [|b bs] eqn:E.
      * apply stripped_lines_nil in E. contradiction.
      * rewrite concat_cons_char. apply (f_equal (String a)) in IH. exact IH.
Qed.

Lemma read_list_loop_map lines result :
  Files.read_list_loop lines result =
    (result ++ map (PyText.strip PyText.newline) lines)%list.
Proof.
  revert result. induction lines as [|l ls IH]; intros result; simpl.
  - rewrite app_nil_r. reflexivity.
  - rewrite IH, <- app_assoc. reflexivity.
Qed.

End TextFacts.

(** ** [read_list] *)

(** X1: on a readable text file [read_list] returns lines none of which holds
    a newline, and these lines joined by newlines are the text of the file,
    but for the newline the text may end in; the file is opened and closed
    again. *)
Theorem read_list_round_trip (texts : gmap string text_file) (w : world)
    (fname s : string) :
  texts !! fname = Some (Text s) ->
  exists lines,
    Files.read_list texts fname w =
      (Return lines, World (sys_modules w) (trace w ++ [EvOpen fname; EvClose fname])) /\
    Forall (fun line => PyStr.has_char PyText.newline line = false) lines /\
    String.concat (String PyText.newline "") lines ++
      (if PyStr.endswith_char PyText.newline s then String PyText.newline "" else "") = s.
Proof.
  intros Hf. exists (Files.stripped_lines s). split; [|split].
  - unfold Files.read_list, Files.open_text. rewrite Hf.
    unfold bind, try_finally, log, ret. cbn [Files.file_readlines sys_modules trace].
    unfold ret. rewrite read_list_loop_map. cbn [sys_modules trace].
    rewrite <- app_assoc. reflexivity.
  - apply stripped_lines_clean.
  - apply stripped_lines_join.
Qed.

Lemma read_list_round_trip_witness :
  exists lines,
    Files.read_list Stale.texts "names.lst" Sample.boot =
      (Return lines, World ∅ [EvOpen "names.lst"; EvClose "names.lst"]) /\
    Forall (fun line => PyStr.has_char PyText.newline line = false) lines /\
    String.concat (String PyText.newline "") lines ++
      (if PyStr.endswith_char PyText.newline Stale.names
       then String PyText.newline "" else "") = Stale.names.
Proof.
  apply (read_list_round_trip Stale.texts Sample.boot "names.lst" Stale.names).
  reflexivity.
Defined.

(** A blank line is kept, as the empty str. *)
Example read_list_names :
  Files.read_list Stale.texts "names.lst" Sample.boot =
    (Return ["cat"; ""; "dog"], World ∅ [EvOpen "names.lst"; EvClose "names.lst"]).
Proof. vm_compute. reflexivity. Qed.

(** X2: [read_list] never leaves a file open.  Either the file does not
    exist, and [FileNotFoundError] is raised with nothing observed, or the
    file is opened and then closed, also when its bytes cannot be decoded;
    [sys.modules] is never touched. *)
Theorem read_list_closes_file (texts : gmap string text_file) (w : world)
    (fname : string) :
  let run := Files.read_list texts fname w in
  sys_modules (snd run) = sys_modules w /\
  match texts !! fname with
  | None => run = (Raise (Exn FileNotFoundError fname), w)
  | Some f =>
      trace (snd run) = (trace w ++ [EvOpen fname; EvClose fname])%list /\
      (f = Undecodable -> exists e, fst run = Raise e)
  end.
Proof.
  cbv zeta. unfold Files.read_list, Files.open_text.
  destruct (texts !! fname) as [[s|]|].
  - unfold bind, try_finally, log, ret. cbn [Files.file_readlines sys_modules trace fst snd].
    unfold ret. cbn [snd fst trace sys_modules]. rewrite <- app_assoc.
    repeat split. discriminate.
  - unfold bind, try_finally, log, ret, raise.
    cbn [Files.file_readlines sys_modules trace fst snd]. unfold raise.
    cbn [snd fst trace sys_modules]. rewrite <- app_assoc.
    repeat split. intros _. eauto.
  - split; reflexivity.
Qed.

(** ** [save_wave] *)

Section WaveFacts.

Lemma str_app_assoc (a b c : string) : (a ++ b) ++ c = a ++ (b ++ c).
Proof.
  induction a as [|x a IH]; [reflexivity|].
  apply (f_equal (String x)) in IH. exact IH.
Qed.

Lemma to_uint_nonnil n : Nat.to_uint n <> Nil.
Proof.
  intros H. pose proof (Unsigned.to_of (Nat.to_uint n)) as E.
  rewrite Unsigned.of_to, H in E. symmetry in E. exact (DecimalFacts.unorm_nonnil _ E).
Qed.

Lemma str_of_nat_inj i j : PyText.str_of_nat i = PyText.str_of_nat j -> i = j.
Proof.
  unfold PyText.str_of_nat. intros H. apply (f_equal NilZero.uint_of_string) in H.
  rewrite !NilZero.usu in H by apply to_uint_nonnil.
  inversion H. apply Unsigned.to_uint_inj. assumption.
Qed.

Lemma digits_chars c d :
  PyStr.has_char c (NilEmpty.string_of_uint d) = true ->
  In c ["0"; "1"; "2"; "3"; "4"; "5"; "6"; "7"; "8"; "9"]%char.
Proof.
  induction d; cbn [NilEmpty.string_of_uint PyStr.has_char]; intros H;
    try discriminate;
    apply orb_true_iff in H as [H | H];
    try (apply Ascii.eqb_eq in H; subst c; simpl; tauto); auto.
Qed.

Lemma str_of_nat_chars c n :
  ~ In c ["0"; "1"; "2"; "3"; "4"; "5"; "6"; "7"; "8"; "9"]%char ->
  PyStr.has_char c (PyText.str_of_nat n) = false.
Proof.
  intros Hc. destruct (PyStr.has_char c (PyText.str_of_nat n)) eqn:E; [|reflexivity].
  exfalso. apply Hc. unfold PyText.str_of_nat, NilZero.string_of_uint in E.
  destruct (Nat.to_uint n) eqn:En;
    try (rewrite <- En in E; apply (digits_chars c (Nat.to_uint n)); rewrite En in *; exact E).
  cbn [PyStr.has_char] in E. rewrite orb_false_r in E. apply Ascii.eqb_eq in E.
  subst c. simpl. tauto.
Qed.

Lemma basename_no_sep p : PyStr.has_char PosixPath.sep (PosixPath.basename p) = false.
Proof.
  unfold PosixPath.basename.
  destruct (PyStr.rcut PosixPath.sep p) as [[pre suf]|] eqn:E.
  - apply rcut_Some in E as [_ H]. exact H.
  - apply rcut_None, E.
Qed.

Lemma split_first_keeps c d s :
  PyStr.has_char c s = false -> PyStr.has_char c (PyText.split_first d s) = false.
Proof.
  induction s as [|a s IH]; [reflexivity|]. simpl. intros H.
  apply orb_false_elim in H as [Ha Hs].
  destruct (Ascii.eqb a d); [reflexivity|]. simpl. rewrite Ha, (IH Hs). reflexivity.
Qed.

Lemma split_first_clean c s : PyStr.has_char c (PyText.split_first c s) = false.
Proof.
  induction s as [|a s IH]; [reflexivity|]. simpl.
  destruct (Ascii.eqb a c) eqn:E; [reflexivity|]. simpl. rewrite E, IH. reflexivity.
Qed.

Lemma stem_no_sep name : PyStr.has_char PosixPath.sep (Waves.stem name) = false.
Proof.
  unfold Waves.stem. destruct (negb (PyStr.contains ".wav" name)).
  - apply basename_no_sep.
  - apply split_first_keeps, basename_no_sep.
Qed.

Lemma file_name_no_sep name i :
  PyStr.has_char PosixPath.sep
    (Waves.stem name ++ "_" ++ PyText.str_of_nat i ++ ".wav") = false.
Proof.
  rewrite has_char_app, stem_no_sep.
  change ("_" ++ PyText.str_of_nat i ++ ".wav")
    with (String "_" (PyText.str_of_nat i ++ ".wav")).
  cbn [PyStr.has_char orb]. rewrite has_char_app, str_of_nat_chars.
  - reflexivity.
  - unfold PosixPath.sep. simpl. intuition discriminate.
Qed.

Lemma wave_path_basename savepath name i :
  PosixPath.basename (Waves.wave_path savepath name i) =
    Waves.stem name ++ "_" ++ PyText.str_of_nat i ++ ".wav".
Proof. apply basename_join, file_name_no_sep. Qed.

(** The index can be read off the path: it follows the last underscore. *)
Lemma wave_path_index savepath n1 n2 i j :
  Waves.wave_path savepath n1 i = Waves.wave_path savepath n2 j -> i = j.
Proof.
  intros H. apply (f_equal PosixPath.basename) in H.
  rewrite !wave_path_basename in H.
  assert (Hf : forall s d, s ++ "_" ++ d ++ ".wav" = (s ++ String "_" d) ++ String "." "wav")
    by (intros s d; rewrite str_app_assoc; reflexivity).
  rewrite !Hf in H. apply (f_equal (PyStr.rcut ".")) in H.
  rewrite !rcut_app in H by reflexivity.
  inversion H as [H']. apply (f_equal (PyStr.rcut "_")) in H'.
  rewrite !rcut_app in H' by (apply str_of_nat_chars; simpl; intuition discriminate).
  inversion H'. apply str_of_nat_inj. assumption.
Qed.

Lemma written_round text path data rate evs :
  Waves.written (WavePrint text :: WaveWrite path data rate :: evs) =
    path :: Waves.written evs.
Proof. reflexivity. Qed.

Context (sf_write : string -> list spec_float -> Z -> outcome unit).

Lemma loop_written savepath name rows i :
  Forall (fun p => exists n k, (i <= k)%nat /\ p = Waves.wave_path savepath n k)
         (Waves.written (snd (Waves.save_wave_loop sf_write savepath name rows i))) /\
  NoDup (Waves.written (snd (Waves.save_wave_loop sf_write savepath name rows i))).
Proof.
  revert i. induction rows as [|row rows IH]; intros i; cbn [Waves.save_wave_loop].
  - split; constructor.
  - destruct (name !! i) as [n|]; [|split; constructor].
    destruct row as [|data chans]; [split; constructor|].
    destruct (sf_write _ data 16000).
    + destruct (IH (S i)) as [Hall Hnd].
      destruct (Waves.save_wave_loop sf_write savepath name rows (S i)) as [o evs].
      cbn [snd Waves.written omap] in *. fold (Waves.written evs). split.
      * constructor; [exists n, i; split; [lia | reflexivity]|].
        eapply Forall_impl; [exact Hall|]. intros p (n' & k & Hk & ->).
        exists n', k. split; [lia | reflexivity].
      * constructor; [|exact Hnd]. intros Hin.
        rewrite Forall_forall in Hall. destruct (Hall _ Hin) as (n' & k & Hk & E).
        apply wave_path_index in E. lia.
    + cbn [snd Waves.written omap]. split.
      * constructor; [exists n, i; split; [lia | reflexivity] | constructor].
      * apply NoDup_singleton.
Qed.

(** A run in which every name is there, every row has a channel and every
    write succeeds. *)
Lemma loop_complete savepath name s rows i :
  (forall path data rate, sf_write path data rate = Return tt) ->
  Forall (fun row => row <> []) rows ->
  (forall k, (i <= k < i + length rows)%nat -> name !! k = Some s) ->
  Waves.save_wave_loop sf_write savepath name rows i =
    (Return tt,
     flat_map (fun '(k, row) =>
                 [WavePrint ("Save audio to " ++ Waves.wave_path savepath s k);
                  WaveWrite (Waves.wave_path savepath s k) (hd [] row) 16000])
              (zip (seq i (length rows)) rows)).
Proof.
  intros Hw Hrows. revert i. induction Hrows as [|row rows Hrow _ IH]; intros i Hname.
  - reflexivity.
  - cbn [Waves.save_wave_loop length seq zip zip_with flat_map].
    rewrite (Hname i) by (cbn [length]; lia).
    destruct row as [|data chans]; [contradiction|].
    rewrite Hw, IH by (intros k Hk; apply Hname; cbn [length]; lia).
    reflexivity.
Qed.

(** A run that finds the list of names exhausted at index [length name]. *)
Lemma loop_short savepath name rows i :
  (forall path data rate, sf_write path data rate = Return tt) ->
  Forall (fun row => row <> []) rows ->
  (i <= length name < i + length rows)%nat ->
  fst (Waves.save_wave_loop sf_write savepath name rows i) =
    Raise (Exn (OtherError "IndexError") "list index out of range") /\
  length (Waves.written (snd (Waves.save_wave_loop sf_write savepath name rows i))) =
    (length name - i)%nat.
Proof.
  intros Hw Hrows. revert i. induction Hrows as [|row rows Hrow _ IH]; intros i Hi.
  - cbn [length] in Hi. lia.
  - cbn [Waves.save_wave_loop]. cbn [length] in Hi.
    destruct (name !! i) as [n|] eqn:En.
    + apply lookup_lt_Some in En.
      destruct row as [|data chans]; [contradiction|]. rewrite Hw.
      destruct (IH (S i) ltac:(lia)) as [Ho Hlen].
      destruct (Waves.save_wave_loop sf_write savepath name rows (S i)) as [o evs].
      cbn [fst snd] in *. rewrite written_round. cbn [length].
      split; [exact Ho | rewrite Hlen; lia].
    + apply lookup_ge_None in En. split; [reflexivity|]. cbn. lia.
Qed.

End WaveFacts.

(** X3: the paths one call of [save_wave] hands to [sf.write] are pairwise
    distinct, whatever the names, the rows and the fate of the writes: no
    file of a batch overwrites another one. *)
Theorem save_wave_distinct_paths
    (sf_write : string -> list spec_float -> Z -> outcome unit)
    (waveform : list (list (list spec_float))) (savepath : string) (name : name_arg) :
  NoDup (Waves.written (snd (Waves.save_wave sf_write waveform savepath name))).
Proof. unfold Waves.save_wave. apply loop_written. Qed.

(** X4: every file is written directly into [savepath]: the path is the join
    of [savepath] and a file name without slash, whatever directories the
    name mentions, and when the name contains [.wav] the part of the file
    name taken from it holds no dot. *)
Theorem save_wave_file_names
    (sf_write : string -> list spec_float -> Z -> outcome unit)
    (waveform : list (list (list spec_float))) (savepath : string) (name : name_arg) :
  Forall (fun p => exists n k,
            p = PosixPath.join savepath
                  (Waves.stem n ++ "_" ++ PyText.str_of_nat k ++ ".wav") /\
            PosixPath.basename p = Waves.stem n ++ "_" ++ PyText.str_of_nat k ++ ".wav" /\
            PyStr.has_char "/" (Waves.stem n) = false /\
            (PyStr.contains ".wav" n = true -> PyStr.has_char "." (Waves.stem n) = false))
         (Waves.written (snd (Waves.save_wave sf_write waveform savepath name))).
Proof.
  unfold Waves.save_wave.
  eapply Forall_impl; [apply (proj1 (loop_written sf_write savepath _ waveform 0))|].
  intros p (n & k & _ & ->). exists n, k. split; [reflexivity|].
  split; [apply wave_path_basename|]. split; [apply stem_no_sep|].
  intros Hc. unfold Waves.stem. rewrite Hc. apply split_first_clean.
Qed.

(** X5: with one name for the batch, rows that have a channel and writes
    that succeed, [save_wave] returns after one print and one write per
    row, at 16000 Hz, of channel 0 to [<stem>_<index>.wav], in order. *)
Theorem save_wave_one_name
    (sf_write : string -> list spec_float -> Z -> outcome unit)
    (waveform : list (list (list spec_float))) (savepath s : string) :
  (forall path data rate, sf_write path data rate = Return tt) ->
  Forall (fun row => row <> []) waveform ->
  Waves.save_wave sf_write waveform savepath (NameStr s) =
    (Return tt,
     flat_map (fun '(k, row) =>
                 [WavePrint ("Save audio to " ++ Waves.wave_path savepath s k);
                  WaveWrite (Waves.wave_path savepath s k) (hd [] row) 16000])
              (zip (seq 0 (length waveform)) waveform)).
Proof.
  intros Hw Hrows. unfold Waves.save_wave. apply loop_complete; [assumption ..|].
  intros k Hk. apply lookup_replicate_2. lia.
Qed.

Lemma save_wave_one_name_witness :
  Waves.save_wave Stale.writer [[[S754_zero false]]; [[S754_zero true]]]
    "out" (NameStr "clips/dog.bark.wav") =
    (Return tt,
     [WavePrint "Save audio to out/dog_0.wav";
      WaveWrite "out/dog_0.wav" [S754_zero false] 16000;
      WavePrint "Save audio to out/dog_1.wav";
      WaveWrite "out/dog_1.wav" [S754_zero true] 16000]).
Proof.
  apply (save_wave_one_name Stale.writer
           [[[S754_zero false]]; [[S754_zero true]]] "out" "clips/dog.bark.wav").
  - reflexivity.
  - repeat constructor; discriminate.
Defined.

(** X6: with a list of names shorter than the batch, rows that have a
    channel and writes that succeed, [save_wave] writes one file per name
    and then raises [IndexError]: the batch is saved in part. *)
Theorem save_wave_short_name_list
    (sf_write : string -> list spec_float -> Z -> outcome unit)
    (waveform : list (list (list spec_float))) (savepath : string) (names : list string) :
  (forall path data rate, sf_write path data rate = Return tt) ->
  Forall (fun row => row <> []) waveform ->
  (length names < length waveform)%nat ->
  fst (Waves.save_wave sf_write waveform savepath (NameList names)) =
    Raise (Exn (OtherError "IndexError") "list index out of range") /\
  length (Waves.written (snd (Waves.save_wave sf_write waveform savepath (NameList names)))) =
    length names.
Proof.
  intros Hw Hrows Hlen. unfold Waves.save_wave.
  destruct (loop_short sf_write savepath names waveform 0 Hw Hrows ltac:(lia)) as [Ho Hn].
  split; [exact Ho | rewrite Hn; lia].
Qed.

Lemma save_wave_short_name_list_witness :
  fst (Waves.save_wave Stale.writer [[[S754_zero false]]; [[S754_zero true]]]
         "out" (NameList ["a.wav"])) =
    Raise (Exn (OtherError "IndexError") "list index out of range") /\
  length (Waves.written
            (snd (Waves.save_wave Stale.writer [[[S754_zero false]]; [[S754_zero true]]]
                    "out" (NameList ["a.wav"])))) = length ["a.wav"].
Proof.
  apply (save_wave_short_name_list Stale.writer
           [[[S754_zero false]]; [[S754_zero true]]] "out" ["a.wav"]).
  - reflexivity.
  - repeat constructor; discriminate.
  - simpl. lia.
Defined.

(** ** [MyProgressBar] *)

Section ProgressFacts.
Context (lib : bar_library).

(** Once the bar is there, each report that is answered adds one update or
    one finish, the object stays as it is, and the series ends early only
    with an exception. *)
Lemma calls_made self m reports before :
  Progress.pbar self = Some m ->
  snd (fst (Progress.calls lib self before reports)) = self /\
  Forall (fun e => match e with
                   | BarUpdate _ | BarFinish => True
                   | BarNew _ | BarStart => False
                   end) (snd (Progress.calls lib self before reports)) /\
  (length (snd (Progress.calls lib self before reports)) <= length reports)%nat /\
  (fst (fst (Progress.calls lib self before reports)) = Return tt ->
   length (snd (Progress.calls lib self before reports)) = length reports).
Proof.
  intros Hm. revert before. induction reports as [|[[bn bs] t] rest IH]; intros before.
  - repeat split; constructor.
  - cbn [Progress.calls]. unfold Progress.call, Progress.the_bar. rewrite Hm.
    destruct (bn * bs <? t).
    + destruct (bar_update lib m _ (bn * bs)) as [[]|e].
      * destruct (IH (before ++ [] ++ [BarUpdate (bn * bs)])%list)
          as (Hself & Hall & Hle & Hlen).
        destruct (Progress.calls lib self _ rest) as [[o s'] evs].
        cbn [fst snd app length] in *.
        repeat split; [assumption | constructor; [exact I | assumption] | lia |].
        intros Ho. rewrite (Hlen Ho). reflexivity.
      * cbn [fst snd app length].
        repeat split; [repeat constructor | lia | discriminate].
    + destruct (bar_finish lib m _) as [[]|e].
      * destruct (IH (before ++ [] ++ [BarFinish])%list)
          as (Hself & Hall & Hle & Hlen).
        destruct (Progress.calls lib self _ rest) as [[o s'] evs].
        cbn [fst snd app length] in *.
        repeat split; [assumption | constructor; [exact I | assumption] | lia |].
        intros Ho. rewrite (Hlen Ho). reflexivity.
      * cbn [fst snd app length].
        repeat split; [repeat constructor | lia | discriminate].
Qed.

(** The values one call passes to the library, whatever it answers. *)
Lemma call_in_range self before total_size block_num block_size :
  (forall m, Progress.pbar self = Some m -> m = total_size) ->
  0 <= block_num -> 0 <= block_size ->
  (forall m, Progress.pbar
               (snd (fst (Progress.call lib self before block_num block_size total_size)))
             = Some m ->
             m = total_size) /\
  Forall (fun e => match e with
                   | BarUpdate value => 0 <= value < total_size
                   | BarNew maxval => maxval = total_size
                   | BarStart | BarFinish => True
                   end)
         (snd (Progress.call lib self before block_num block_size total_size)).
Proof.
  intros Hself Hbn Hbs. pose proof (Z.mul_nonneg_nonneg _ _ Hbn Hbs) as Hd.
  unfold Progress.call, Progress.the_bar.
  destruct (Progress.pbar self) as [m|] eqn:Hm.
  - assert (m = total_size) by (apply Hself; reflexivity). subst m.
    assert (Hs : forall m, Progress.pbar self = Some m -> m = total_size)
      by (intros m H; rewrite Hm in H; congruence).
    destruct (Z.ltb_spec (block_num * block_size) total_size);
      cbn [fst snd app]; (split; [exact Hs|]); repeat constructor; lia.
  - assert (Hs : forall m, Progress.pbar self = Some m -> m = total_size)
      by (intros m H; rewrite Hm in H; congruence).
    destruct (bar_new lib before total_size) as [[]|e];
      [|cbn [fst snd]; split; [exact Hs | repeat constructor]].
    destruct (bar_start lib total_size _) as [[]|e];
      [|cbn [fst snd Progress.pbar]; split; [congruence | repeat constructor]].
    destruct (Z.ltb_spec (block_num * block_size) total_size);
      cbn [fst snd app Progress.pbar]; (split; [congruence|]); repeat constructor; lia.
Qed.

(** The values passed to the library over a series of reports. *)
Lemma calls_in_range self before total_size reports :
  (forall m, Progress.pbar self = Some m -> m = total_size) ->
  Forall (fun '(block_num, block_size, total) =>
            0 <= block_num /\ 0 <= block_size /\ total = total_size) reports ->
  (forall m, Progress.pbar (snd (fst (Progress.calls lib self before reports))) = Some m ->
             m = total_size) /\
  Forall (fun e => match e with
                   | BarUpdate value => 0 <= value < total_size
                   | BarNew maxval => maxval = total_size
                   | BarStart | BarFinish => True
                   end) (snd (Progress.calls lib self before reports)).
Proof.
  intros Hself Hall. revert self before Hself.
  induction Hall as [|[[bn bs] t] rest (Hbn & Hbs & ->) _ IH]; intros self before Hself.
  - split; [exact Hself | constructor].
  - cbn [Progress.calls].
    destruct (call_in_range self before total_size bn bs Hself Hbn Hbs) as [Hs1 He1].
    destruct (Progress.call lib self before bn bs total_size) as [[[[]|e] s1] e1];
      cbn [fst snd] in Hs1, He1; [|split; assumption].
    destruct (IH s1 (before ++ e1)%list Hs1) as [Hs2 He2].
    destruct (Progress.calls lib s1 _ rest) as [[o2 s2] e2]. cbn [fst snd] in *.
    split; [exact Hs2 | apply Forall_app; split; assumption].
Qed.

Lemma calls_bar_made block_num block_size total_size rest :
  bar_new lib [] total_size = Return tt ->
  Progress.pbar (snd (fst (Progress.calls lib Progress.init []
                             ((block_num, block_size, total_size) :: rest)))) =
    Some total_size.
Proof.
  intros Hnew. cbn [Progress.calls]. unfold Progress.call, Progress.the_bar.
  cbn [Progress.pbar Progress.init]. rewrite Hnew.
  destruct (bar_start lib total_size _) as [[]|e]; [|reflexivity].
  destruct (block_num * block_size <? total_size);
    [destruct (bar_update lib total_size _ (block_num * block_size)) as [[]|e]
    |destruct (bar_finish lib total_size _) as [[]|e]];
    try reflexivity;
    match goal with
    | |- context [Progress.calls lib ?s ?b rest] =>
        destruct (calls_made s total_size rest b eq_refl) as (Hself & _);
        destruct (Progress.calls lib s b rest) as [[o s'] evs]
    end;
    cbn [fst snd] in *; subst s'; reflexivity.
Qed.

End ProgressFacts.

(** X7: a fresh [MyProgressBar] never makes its bar twice.  Over any series
    of reports, and whatever the library answers, the bar is made at the
    first report with the total of that report; when the making raises,
    nothing else happens; otherwise the bar is kept, [start] is called
    once, and every report that is reached adds one update or one finish.
    When the series ends without exception every report was answered. *)
Theorem progress_bar_made_once (lib : bar_library) (block_num block_size total_size : Z)
    (rest : list (Z * Z * Z)) :
  let run := Progress.calls lib Progress.init []
               ((block_num, block_size, total_size) :: rest) in
  (snd run = [BarNew total_size] /\
   Progress.pbar (snd (fst run)) = None /\
   exists e, fst (fst run) = Raise e) \/
  (exists answers,
     snd run = BarNew total_size :: BarStart :: answers /\
     Progress.pbar (snd (fst run)) = Some total_size /\
     Forall (fun e => match e with
                      | BarUpdate _ | BarFinish => True
                      | BarNew _ | BarStart => False
                      end) answers /\
     (length answers <= S (length rest))%nat /\
     (fst (fst run) = Return tt -> length answers = S (length rest))).
Proof.
  cbv zeta. cbn [Progress.calls]. unfold Progress.call, Progress.the_bar.
  cbn [Progress.pbar Progress.init].
  destruct (bar_new lib [] total_size) as [[]|e]; [|left; cbn; eauto].
  right. destruct (bar_start lib total_size _) as [[]|e].
  2:{ exists []. cbn. repeat split; [constructor | lia | discriminate]. }
  destruct (block_num * block_size <? total_size);
    [destruct (bar_update lib total_size _ (block_num * block_size)) as [[]|e]
    |destruct (bar_finish lib total_size _) as [[]|e]];
    try (eexists; split; [reflexivity|]; split; [reflexivity|];
         split; [repeat constructor|]; split; [cbn; lia | discriminate]);
    match goal with
    | |- context [Progress.calls lib ?s ?b rest] =>
        destruct (calls_made lib s total_size rest b eq_refl)
          as (Hself & Hall & Hle & Hlen);
        destruct (Progress.calls lib s b rest) as [[o s'] evs]
    end;
    cbn [fst snd app length] in *; subst s';
    (eexists; split; [reflexivity|]; split; [reflexivity|];
     split; [constructor; [exact I | exact Hall]|];
     split; [cbn; lia | intros Ho; cbn; rewrite (Hlen Ho); reflexivity]).
Qed.

(** A library that finishes a bar once only: the second finish raises, and
    the third report is not answered. *)
Example progress_bar_finished_twice :
  Progress.calls Stale.once Progress.init [] [(0, 8192, 0); (1, 8192, 0); (2, 8192, 0)] =
    (Raise (Exn (OtherError "RuntimeError") "bar already finished"),
     {| Progress.pbar := Some 0 |},
     [BarNew 0; BarStart; BarFinish; BarFinish]).
Proof. reflexivity. Qed.

(** X8: when every report carries the same total, with block numbers and
    block sizes that are not negative, each value passed to [update] lies
    in the range of the bar, from 0 up to but not including the [maxval] it
    was made with; this holds whatever the library answers.  The bar, once
    made, has that total as its [maxval]. *)
Theorem progress_bar_updates_in_range (lib : bar_library) (total_size : Z)
    (reports : list (Z * Z * Z)) :
  Forall (fun '(block_num, block_size, total) =>
            0 <= block_num /\ 0 <= block_size /\ total = total_size) reports ->
  let run := Progress.calls lib Progress.init [] reports in
  (forall m, Progress.pbar (snd (fst run)) = Some m -> m = total_size) /\
  (reports <> [] -> bar_new lib [] total_size = Return tt ->
   Progress.pbar (snd (fst run)) = Some total_size) /\
  Forall (fun e => match e with
                   | BarUpdate value => 0 <= value < total_size
                   | BarNew maxval => maxval = total_size
                   | BarStart | BarFinish => True
                   end) (snd run).
Proof.
  intros Hall. cbv zeta.
  destruct (calls_in_range lib Progress.init [] total_size reports
              ltac:(cbn; congruence) Hall) as [Hs He].
  split; [exact Hs|]. split; [|exact He].
  intros Hne Hnew. destruct reports as [|[[bn bs] t] rest]; [congruence|].
  assert (t = total_size) by (inversion Hall; tauto). subst t.
  apply calls_bar_made. exact Hnew.
Qed.

Lemma progress_bar_updates_in_range_witness :
  let run := Progress.calls Stale.strict Progress.init []
               [(0, 8192, 20000); (1, 8192, 20000); (2, 8192, 20000); (3, 8192, 20000)] in
  (forall m, Progress.pbar (snd (fst run)) = Some m -> m = 20000) /\
  ([(0, 8192, 20000); (1, 8192, 20000); (2, 8192, 20000); (3, 8192, 20000)] <> [] ->
   bar_new Stale.strict [] 20000 = Return tt ->
   Progress.pbar (snd (fst run)) = Some 20000) /\
  Forall (fun e => match e with
                   | BarUpdate value => 0 <= value < 20000
                   | BarNew maxval => maxval = 20000
                   | BarStart | BarFinish => True
                   end) (snd run).
Proof.
  apply (progress_bar_updates_in_range Stale.strict 20000).
  repeat constructor; lia.
Defined.

Example progress_bar_download :
  Progress.calls Stale.strict Progress.init []
    [(0, 8192, 20000); (1, 8192, 20000); (2, 8192, 20000); (3, 8192, 20000)] =
    (Return tt, {| Progress.pbar := Some 20000 |},
     [BarNew 20000; BarStart; BarUpdate 0; BarUpdate 8192; BarUpdate 16384; BarFinish]).
Proof. reflexivity. Qed.

(** X9: when the total is zero or negative, nothing is ever passed to
    [update]; if the library makes and starts such a bar and finishes it,
    also when it was finished before, without exception, the bar is
    finished at the first report and finished again at every later one. *)
Theorem progress_bar_unknown_total (lib : bar_library) (total_size : Z)
    (reports : list (Z * Z * Z)) :
  total_size <= 0 ->
  Forall (fun '(block_num, block_size, total) =>
            0 <= block_num /\ 0 <= block_size /\ total = total_size) reports ->
  reports <> [] ->
  bar_new lib [] total_size = Return tt ->
  bar_start lib total_size [BarNew total_size] = Return tt ->
  (forall k, bar_finish lib total_size
               (BarNew total_size :: BarStart :: replicate k BarFinish) = Return tt) ->
  Progress.calls lib Progress.init [] reports =
    (Return tt, {| Progress.pbar := Some total_size |},
     BarNew total_size :: BarStart :: replicate (length reports) BarFinish).
Proof.
  intros Ht Hall Hne Hnew Hstart Hfin.
  assert (Hmade : forall l k,
            Forall (fun '(block_num, block_size, total) =>
                      0 <= block_num /\ 0 <= block_size /\ total = total_size) l ->
            Progress.calls lib {| Progress.pbar := Some total_size |}
              (BarNew total_size :: BarStart :: replicate k BarFinish) l =
              (Return tt, {| Progress.pbar := Some total_size |},
               replicate (length l) BarFinish)).
  { intros l k Hl. revert k.
    induction Hl as [|[[bn bs] t] l (Hbn & Hbs & ->) _ IH]; intros k; [reflexivity|].
    cbn [Progress.calls length replicate]. unfold Progress.call, Progress.the_bar.
    cbn [Progress.pbar].
    destruct (Z.ltb_spec (bn * bs) total_size) as [Hlt|_].
    - pose proof (Z.mul_nonneg_nonneg _ _ Hbn Hbs). lia.
    - rewrite app_nil_r, Hfin. cbn [app].
      change (BarNew total_size :: BarStart :: replicate k BarFinish ++ [BarFinish])%list
        with (BarNew total_size :: BarStart :: (replicate k BarFinish ++ [BarFinish]))%list.
      rewrite <- replicate_cons_app.
      change (BarFinish :: replicate k BarFinish) with (replicate (S k) BarFinish).
      rewrite IH. reflexivity. }
  destruct reports as [|[[bn bs] t] rest]; [congruence|].
  apply Forall_cons in Hall as [(Hbn & Hbs & ->) Hrest].
  cbn [Progress.calls length replicate]. unfold Progress.call, Progress.the_bar.
  cbn [Progress.pbar Progress.init app]. rewrite Hnew, Hstart.
  destruct (Z.ltb_spec (bn * bs) total_size) as [Hlt|_].
  - pose proof (Z.mul_nonneg_nonneg _ _ Hbn Hbs). lia.
  - cbn [app]. pose proof (Hfin 0%nat) as H0. cbn [replicate] in H0. rewrite H0.
    pose proof (Hmade rest 1%nat Hrest) as H1. cbn [replicate] in H1.
    cbn [app]. rewrite H1. reflexivity.
Qed.

Lemma progress_bar_unknown_total_witness :
  Progress.calls Stale.strict Progress.init [] [(0, 8192, 0); (1, 8192, 0)] =
    (Return tt, {| Progress.pbar := Some 0 |},
     [BarNew 0; BarStart; BarFinish; BarFinish]).
Proof.
  apply (progress_bar_unknown_total Stale.strict 0 [(0, 8192, 0); (1, 8192, 0)]).
  - lia.
  - repeat constructor; lia.
  - discriminate.
  - reflexivity.
  - reflexivity.
  - intros k. reflexivity.
Defined.

(** X22: when [start] raises, as a library does that refuses a negative
    [maxval], the exception leaves the first report at once: neither
    [update] nor [finish] is reached, no later report is made, and the
    object keeps the bar that was never started. *)
Theorem progress_bar_start_fails (lib : bar_library) (block_num block_size total_size : Z)
    (rest : list (Z * Z * Z)) (e : exn) :
  bar_new lib [] total_size = Return tt ->
  bar_start lib total_size [BarNew total_size] = Raise e ->
  Progress.calls lib Progress.init [] ((block_num, block_size, total_size) :: rest) =
    (Raise e, {| Progress.pbar := Some total_size |}, [BarNew total_size; BarStart]).
Proof.
  intros Hnew Hstart. cbn [Progress.calls]. unfold Progress.call, Progress.the_bar.
  cbn [Progress.pbar Progress.init app]. rewrite Hnew, Hstart. reflexivity.
Qed.

Lemma progress_bar_start_fails_witness :
  Progress.calls Stale.strict Progress.init [] [(0, 8192, -1); (1, 8192, -1)] =
    (Raise (Exn ValueError "max_value out of range"),
     {| Progress.pbar := Some (-1) |}, [BarNew (-1); BarStart]).
Proof.
  apply (progress_bar_start_fails Stale.strict 0 8192 (-1) [(1, 8192, -1)]
           (Exn ValueError "max_value out of range")).
  - reflexivity.
  - reflexivity.
Defined.

(** With a library that starts any bar the same reports are all answered,
    each with a finish. *)
Example progress_bar_negative_total_started :
  Progress.calls Stale.calm Progress.init [] [(0, 8192, -1); (1, 8192, -1)] =
    (Return tt, {| Progress.pbar := Some (-1) |},
     [BarNew (-1); BarStart; BarFinish; BarFinish]).
Proof. reflexivity. Qed.

(** ** More on the identifier resolver *)

Section ResolverErrors.
Context (h : host).

(** The first steps of [get_obj_from_str] on [m.c]. *)
Lemma get_obj_from_str_split w m c reload :
  PyStr.has_char "." c = false ->
  utils.get_obj_from_str h (VStr (m ++ "." ++ c)) reload w =
    (do _ <- (if reload then
                do module_imp <- Py.import_module h m;
                do _ <- Py.reload h module_imp;
                ret tt
              else ret tt);
     do module_obj <- Py.import_module h m;
     Py.getattr_module module_obj c) w.
Proof.
  intros Hc. unfold utils.get_obj_from_str.
  unfold bind at 1. cbn [Py.rsplit1 ret]. unfold PyStr.rsplit1.
  change (m ++ "." ++ c) with (m ++ String "." c). rewrite (rcut_app _ _ _ Hc).
  unfold bind at 1. cbn [Py.unpack2 ret]. reflexivity.
Qed.

(** Importing caches what the import system finds and nothing else: the
    namespace found under any name is the same before and after. *)
Lemma import_module_namespace name w o w' q :
  Py.import_module h name w = (o, w') ->
  Py.namespace_of h (sys_modules w') q = Py.namespace_of h (sys_modules w) q.
Proof.
  unfold Py.import_module.
  destruct (PyStr.startswith "." name); [intros H; inversion H; reflexivity|].
  destruct (String.eqb name ""); [intros H; inversion H; reflexivity|].
  unfold bind, log. cbn [sys_modules trace].
  destruct (sys_modules w !! name) as [ns|] eqn:E; [intros H; inversion H; reflexivity|].
  destruct (module_source h !! name) as [ns|] eqn:Es; intros H; inversion H; [|reflexivity].
  cbn [sys_modules]. unfold Py.namespace_of.
  destruct (decide (name = q)) as [<- | Hne].
  - rewrite lookup_insert_eq, E. symmetry. exact Es.
  - rewrite lookup_insert_ne by exact Hne. reflexivity.
Qed.

Lemma getattr_module_world name attr w o w' :
  Py.getattr_module name attr w = (o, w') -> w' = w.
Proof.
  unfold Py.getattr_module. destruct (sys_modules w !! name) as [ns|];
    [destruct (ns !! attr)|]; intros H; inversion H; reflexivity.
Qed.

Lemma get_obj_from_str_namespace t w o w' q :
  utils.get_obj_from_str h t false w = (o, w') ->
  Py.namespace_of h (sys_modules w') q = Py.namespace_of h (sys_modules w) q.
Proof.
  unfold utils.get_obj_from_str. unfold bind at 1.
  destruct t; cbn [Py.rsplit1]; try (intros H; inversion H; reflexivity).
  cbn [ret]. unfold bind at 1.
  destruct (PyStr.rsplit1 "." s) as [|a [|b [|c l]]]; cbn [Py.unpack2];
    try (intros H; inversion H; reflexivity).
  cbn [ret]. unfold bind at 1. cbn [ret]. unfold bind.
  destruct (Py.import_module h a w) as [[mo|e] w1] eqn:E.
  - intros H. apply getattr_module_world in H. subst w'.
    exact (import_module_namespace _ _ _ _ q E).
  - intros H. inversion H; subst. exact (import_module_namespace _ _ _ _ q E).
Qed.

End ResolverErrors.

(** X10: when the module part [m] of the identifier is a top-level name,
    one without dot, that the import system does not find,
    [get_obj_from_str] raises [ModuleNotFoundError] for [m] after the one
    import it tried, and [sys.modules] is as before. *)
Theorem get_obj_from_str_unknown_module (h : host) (w : world) (m c : string) :
  PyStr.has_char "." c = false ->
  PyStr.has_char "." m = false ->
  m <> "" ->
  Py.namespace_of h (sys_modules w) m = None ->
  utils.get_obj_from_str h (VStr (m ++ "." ++ c)) false w =
    (Raise (Exn ModuleNotFoundError m),
     World (sys_modules w) (trace w ++ [EvImport m])).
Proof.
  intros Hc Hm Hne Hns.
  assert (Hrel : PyStr.startswith "." m = false).
  { destruct m as [|a m]; [reflexivity|]. cbn [PyStr.has_char PyStr.startswith] in *.
    apply orb_false_elim in Hm as [Ha _]. rewrite Ascii.eqb_sym, Ha. reflexivity. }
  rewrite (get_obj_from_str_split h w m c false Hc).
  unfold bind at 1. cbn [ret]. unfold bind.
  rewrite (import_module_missing h w m Hrel Hne Hns). reflexivity.
Qed.

Lemma get_obj_from_str_unknown_module_witness :
  utils.get_obj_from_str Sample.machine (VStr "audioldm3.instantiate") false Sample.boot =
    (Raise (Exn ModuleNotFoundError "audioldm3"),
     World ∅ [EvImport "audioldm3"]).
Proof.
  apply (get_obj_from_str_unknown_module Sample.machine Sample.boot "audioldm3" "instantiate").
  - reflexivity.
  - reflexivity.
  - discriminate.
  - reflexivity.
Defined.

(** X11: when the module [m] is found but does not bind [c],
    [get_obj_from_str] raises [AttributeError]; the module has been loaded
    all the same and stays in [sys.modules]. *)
Theorem get_obj_from_str_unknown_symbol (h : host) (w : world) (m c : string)
    (ns : gmap string value) :
  PyStr.has_char "." c = false ->
  PyStr.startswith "." m = false ->
  m <> "" ->
  Py.namespace_of h (sys_modules w) m = Some ns ->
  ns !! c = None ->
  utils.get_obj_from_str h (VStr (m ++ "." ++ c)) false w =
    (Raise (Exn AttributeError c),
     World (<[m := ns]> (sys_modules w)) (trace w ++ [EvImport m])).
Proof.
  intros Hc Hrel Hne Hns Hnone. rewrite (get_obj_from_str_split h w m c false Hc).
  unfold bind at 1. cbn [ret]. unfold bind.
  rewrite (import_module_run h w m ns Hrel Hne Hns).
  unfold Py.getattr_module. cbn [sys_modules]. rewrite lookup_insert_eq, Hnone.
  reflexivity.
Qed.

Lemma get_obj_from_str_unknown_symbol_witness :
  utils.get_obj_from_str Sample.machine (VStr "a.b.Missing") false Sample.boot =
    (Raise (Exn AttributeError "Missing"),
     World (<["a.b" := Sample.ns_ab]> ∅) [EvImport "a.b"]).
Proof.
  apply (get_obj_from_str_unknown_symbol Sample.machine Sample.boot "a.b" "Missing"
           Sample.ns_ab).
  - reflexivity.
  - reflexivity.
  - discriminate.
  - reflexivity.
  - reflexivity.
Defined.

(** X12: a module is loaded once.  After a resolution that succeeded, the
    same identifier resolves to the same value in any environment, also one
    whose source of the module has changed or is gone, and [sys.modules] is
    not changed by the second resolution. *)
Theorem get_obj_from_str_uses_cache (h h' : host) (w w1 : world) (m c : string)
    (ns : gmap string value) (v : value) :
  PyStr.has_char "." c = false ->
  PyStr.startswith "." m = false ->
  m <> "" ->
  Py.namespace_of h (sys_modules w) m = Some ns ->
  ns !! c = Some v ->
  snd (utils.get_obj_from_str h (VStr (m ++ "." ++ c)) false w) = w1 ->
  utils.get_obj_from_str h' (VStr (m ++ "." ++ c)) false w1 =
    (Return v, World (sys_modules w1) (trace w1 ++ [EvImport m])).
Proof.
  intros Hc Hrel Hne Hns Hv Hw1.
  rewrite (get_obj_from_str_run h w m c ns v Hc Hrel Hne Hns Hv) in Hw1.
  cbn [snd] in Hw1. subst w1.
  assert (Hns' : Py.namespace_of h' (<[m := ns]> (sys_modules w)) m = Some ns).
  { unfold Py.namespace_of. rewrite lookup_insert_eq. reflexivity. }
  rewrite (get_obj_from_str_run h' (World (<[m := ns]> (sys_modules w)) _)
             m c ns v Hc Hrel Hne Hns' Hv).
  cbn [sys_modules trace]. rewrite insert_insert_eq. reflexivity.
Qed.

Lemma get_obj_from_str_uses_cache_witness :
  utils.get_obj_from_str Stale.offline (VStr "a.b.C") false
    (World {[ "a.b" := Sample.ns_ab ]} [EvImport "a.b"]) =
    (Return (VClass "a.b.C"),
     World {[ "a.b" := Sample.ns_ab ]} [EvImport "a.b"; EvImport "a.b"]).
Proof.
  exact (get_obj_from_str_uses_cache Sample.machine Stale.offline
           Sample.boot (World {[ "a.b" := Sample.ns_ab ]} [EvImport "a.b"])
           "a.b" "C" Sample.ns_ab (VClass "a.b.C")
           eq_refl eq_refl ltac:(discriminate) eq_refl eq_refl eq_refl).
Defined.

(** X13: [reload] decides between the copy in [sys.modules] and the source.
    When both bind [c], without [reload] the value of the loaded copy is
    returned and with [reload] the value the source gives now. *)
Theorem get_obj_from_str_reload_refreshes (h : host) (w : world) (m c : string)
    (old src : gmap string value) (v_old v_new : value) :
  PyStr.has_char "." c = false ->
  PyStr.startswith "." m = false ->
  m <> "" ->
  sys_modules w !! m = Some old ->
  module_source h !! m = Some src ->
  old !! c = Some v_old ->
  src !! c = Some v_new ->
  fst (utils.get_obj_from_str h (VStr (m ++ "." ++ c)) false w) = Return v_old /\
  fst (utils.get_obj_from_str h (VStr (m ++ "." ++ c)) true w) = Return v_new.
Proof.
  intros Hc Hrel Hne Hold Hsrc Hvo Hvn.
  assert (Hns : Py.namespace_of h (sys_modules w) m = Some old)
    by (unfold Py.namespace_of; rewrite Hold; reflexivity).
  split.
  - rewrite (get_obj_from_str_run h w m c old v_old Hc Hrel Hne Hns Hvo). reflexivity.
  - rewrite (get_obj_from_str_reload h w m c old src v_new Hc Hrel Hne Hns Hsrc).
    + reflexivity.
    + apply lookup_union_Some_l. exact Hvn.
Qed.

Lemma get_obj_from_str_reload_refreshes_witness :
  fst (utils.get_obj_from_str Sample.machine (VStr "a.b.C") false Stale.world0)
    = Return (VClass "a.b.OldC") /\
  fst (utils.get_obj_from_str Sample.machine (VStr "a.b.C") true Stale.world0)
    = Return (VClass "a.b.C").
Proof.
  apply (get_obj_from_str_reload_refreshes Sample.machine Stale.world0 "a.b" "C"
           Stale.ns_old Sample.ns_ab (VClass "a.b.OldC") (VClass "a.b.C")).
  - reflexivity.
  - reflexivity.
  - discriminate.
  - reflexivity.
  - reflexivity.
  - reflexivity.
  - reflexivity.
Defined.

(** X14: [reload] does not forget.  A name the loaded copy binds and the
    source no longer binds is still resolved after the reload, to its old
    value. *)
Theorem get_obj_from_str_reload_keeps (h : host) (w : world) (m c : string)
    (old src : gmap string value) (v : value) :
  PyStr.has_char "." c = false ->
  PyStr.startswith "." m = false ->
  m <> "" ->
  sys_modules w !! m = Some old ->
  module_source h !! m = Some src ->
  old !! c = Some v ->
  src !! c = None ->
  utils.get_obj_from_str h (VStr (m ++ "." ++ c)) true w =
    (Return v, World (<[m := src ∪ old]> (sys_modules w))
                     (trace w ++ [EvImport m; EvReload m; EvImport m])).
Proof.
  intros Hc Hrel Hne Hold Hsrc Hv Hnone.
  assert (Hns : Py.namespace_of h (sys_modules w) m = Some old)
    by (unfold Py.namespace_of; rewrite Hold; reflexivity).
  apply (get_obj_from_str_reload h w m c old src v Hc Hrel Hne Hns Hsrc).
  rewrite lookup_union_r by exact Hnone. exact Hv.
Qed.

Lemma get_obj_from_str_reload_keeps_witness :
  utils.get_obj_from_str Sample.machine (VStr "a.b.Legacy") true Stale.world0 =
    (Return (VInt 1),
     World (<["a.b" := Sample.ns_ab ∪ Stale.ns_old]> {[ "a.b" := Stale.ns_old ]})
           [EvImport "a.b"; EvReload "a.b"; EvImport "a.b"]).
Proof.
  apply (get_obj_from_str_reload_keeps Sample.machine Stale.world0 "a.b" "Legacy"
           Stale.ns_old Sample.ns_ab (VInt 1)).
  - reflexivity.
  - reflexivity.
  - discriminate.
  - reflexivity.
  - reflexivity.
  - reflexivity.
  - reflexivity.
Defined.

(** ** More on the config resolver *)

Section ResolverSwallows.
Context (h : host).

(** On a dict with the key [target] the run ends in one of two ways: the
    callable was found and called and its result is returned, or the
    [except] clause takes over.  What the import system finds under a name
    is the same in the world reached. *)
Lemma instantiate_dict_run w (d : gmap string value) t :
  d !! "target" = Some t ->
  exists w',
    (forall q, Py.namespace_of h (sys_modules w') q = Py.namespace_of h (sys_modules w) q) /\
    ((exists v, utils.instantiate_from_config h (VDict d) w = (Return v, w')) \/
     utils.instantiate_from_config h (VDict d) w = utils.instantiate_from_config_except h w').
Proof.
  intros Ht. remember (utils.instantiate_from_config h (VDict d) w) as run eqn:Hrun.
  unfold utils.instantiate_from_config, Py.contains in Hrun. cbn [Py.membership] in Hrun.
  rewrite Ht in Hrun. unfold bind at 1 in Hrun. cbn [ret negb] in Hrun.
  unfold try_except in Hrun.
  unfold bind at 1 in Hrun. cbn [Py.getitem] in Hrun. rewrite Ht in Hrun. cbn [ret] in Hrun.
  unfold bind at 1 in Hrun.
  destruct (utils.get_obj_from_str h t false w) as [[ctor|e] w1] eqn:E1.
  - assert (Hns := fun q => get_obj_from_str_namespace h t w _ w1 q E1).
    unfold bind at 1 in Hrun. cbn [Py.get_method] in Hrun.
    assert (Hget : exists params,
               (match d !! "params" with
                | Some v => ret v
                | None => ret (VDict ∅)
                end) w1 = (Return params, w1))
      by (destruct (d !! "params"); eauto).
    destruct Hget as [params Hget]. rewrite Hget in Hrun.
    unfold bind at 1 in Hrun.
    destruct params; cbn [Py.kwargs_of] in Hrun;
      try (exists w1; split; [exact Hns | right; exact Hrun]).
    cbn [ret] in Hrun. unfold Py.call in Hrun.
    destruct (Py.callable ctor);
      [|exists w1; split; [exact Hns | right; exact Hrun]].
    unfold bind, log, lift in Hrun. cbn [sys_modules trace] in Hrun.
    exists (World (sys_modules w1) (trace w1 ++ [EvCall ctor d0])).
    split; [exact Hns|].
    destruct (call_behaviour h ctor d0); [left; eauto | right; exact Hrun].
  - exists w1. split.
    + intros q. exact (get_obj_from_str_namespace h t w _ w1 q E1).
    + right. exact Hrun.
Qed.

End ResolverSwallows.

(** X15: with [ipdb] installed and [set_trace] returning, the one
    exception that leaves [instantiate_from_config] on a dict that has the
    key [target] is the exception of a debugger session that is quit.
    Whatever the target and the parameters are (an unknown module, an
    unknown symbol, a target that is no str or not callable, parameters
    that are no mapping, a constructor that fails), the run returns a value
    or raises what the session raised; with a session that is resumed it
    always returns. *)
Theorem instantiate_from_config_raises_only_on_quit (h : host) (w : world)
    (d : gmap string value) (t : value) (nsdb : gmap string value) (st r : value) :
  d !! "target" = Some t ->
  Py.namespace_of h (sys_modules w) "ipdb" = Some nsdb ->
  nsdb !! "set_trace" = Some st ->
  Py.callable st = true ->
  call_behaviour h st ∅ = Return r ->
  (exists w',
     (exists v, utils.instantiate_from_config h (VDict d) w = (Return v, w')) \/
     (exists quit, debugger_session h st = Raise quit /\
                   utils.instantiate_from_config h (VDict d) w = (Raise quit, w'))) /\
  (forall u, debugger_session h st = Return u ->
             exists v w', utils.instantiate_from_config h (VDict d) w = (Return v, w')).
Proof.
  intros Ht Hdb Hst Hc Hr.
  destruct (instantiate_dict_run h w d t Ht) as (w' & Hns & [[v Hv] | Hex]).
  - split; [exists w'; left; eauto | eauto].
  - rewrite Hex, (except_run h w' nsdb st r) by (rewrite ?Hns; assumption).
    destruct (debugger_session h st) as [u|quit].
    + split; [eexists; left; eauto | eauto].
    + split; [eexists; right; eauto | discriminate].
Qed.

Lemma instantiate_from_config_raises_only_on_quit_witness :
  (exists w',
     (exists v, utils.instantiate_from_config Stale.impatient
                  (VDict {[ "target" := VInt 7; "params" := VList [] ]}) Sample.boot
                = (Return v, w')) \/
     (exists quit,
        debugger_session Stale.impatient (VFunction "ipdb.set_trace") = Raise quit /\
        utils.instantiate_from_config Stale.impatient
          (VDict {[ "target" := VInt 7; "params" := VList [] ]}) Sample.boot
        = (Raise quit, w'))) /\
  (forall u, debugger_session Stale.impatient (VFunction "ipdb.set_trace") = Return u ->
             exists v w',
               utils.instantiate_from_config Stale.impatient
                 (VDict {[ "target" := VInt 7; "params" := VList [] ]}) Sample.boot
               = (Return v, w')).
Proof.
  apply (instantiate_from_config_raises_only_on_quit Stale.impatient Sample.boot
           {[ "target" := VInt 7; "params" := VList [] ]} (VInt 7)
           Sample.ns_ipdb (VFunction "ipdb.set_trace") VNone).
  - reflexivity.
  - reflexivity.
  - reflexivity.
  - reflexivity.
  - reflexivity.
Defined.

(** A target that is no str: resumed, the run returns [None]; quit, it
    raises [bdb.BdbQuit]. *)
Example instantiate_bad_target_resumed :
  fst (utils.instantiate_from_config Sample.machine
         (VDict {[ "target" := VInt 7; "params" := VList [] ]}) Sample.boot) = Return VNone.
Proof. vm_compute. reflexivity. Qed.

Example instantiate_bad_target_quit :
  fst (utils.instantiate_from_config Stale.impatient
         (VDict {[ "target" := VInt 7; "params" := VList [] ]}) Sample.boot) =
    Raise (Exn (OtherError "bdb.BdbQuit") "").
Proof. vm_compute. reflexivity. Qed.

(** X16: without [ipdb] the one exception that leaves
    [instantiate_from_config] on a dict with the key [target] is the
    [ModuleNotFoundError] for [ipdb]: the run returns what the constructor
    returned, or raises that error in place of the failure that
    happened. *)
Theorem instantiate_from_config_without_ipdb (h : host) (w : world)
    (d : gmap string value) (t : value) :
  d !! "target" = Some t ->
  Py.namespace_of h (sys_modules w) "ipdb" = None ->
  exists w',
    (exists v, utils.instantiate_from_config h (VDict d) w = (Return v, w')) \/
    utils.instantiate_from_config h (VDict d) w =
      (Raise (Exn ModuleNotFoundError "ipdb"), w').
Proof.
  intros Ht Hdb.
  destruct (instantiate_dict_run h w d t Ht) as (w' & Hns & [[v Hv] | Hex]).
  - exists w'. left. eauto.
  - exists (World (sys_modules w') (trace w' ++ [EvImport "ipdb"])). right.
    rewrite Hex. unfold utils.instantiate_from_config_except. unfold bind at 1.
    rewrite (import_module_missing h w' "ipdb" eq_refl ltac:(discriminate))
      by (rewrite Hns; exact Hdb).
    reflexivity.
Qed.

Lemma instantiate_from_config_without_ipdb_witness :
  exists w',
    (exists v, utils.instantiate_from_config Stale.offline
                 (VDict {[ "target" := VStr "a.b.Boom" ]}) Stale.world0 = (Return v, w')) \/
    utils.instantiate_from_config Stale.offline
      (VDict {[ "target" := VStr "a.b.Boom" ]}) Stale.world0 =
      (Raise (Exn ModuleNotFoundError "ipdb"), w').
Proof.
  apply (instantiate_from_config_without_ipdb Stale.offline Stale.world0
           {[ "target" := VStr "a.b.Boom" ]} (VStr "a.b.Boom")).
  - reflexivity.
  - reflexivity.
Defined.

Example instantiate_masks_failure :
  utils.instantiate_from_config Stale.offline
    (VDict {[ "target" := VStr "a.b.Legacy" ]}) Stale.world0 =
    (Raise (Exn ModuleNotFoundError "ipdb"),
     World {[ "a.b" := Stale.ns_old ]} [EvImport "a.b"; EvImport "ipdb"]).
Proof. vm_compute. reflexivity. Qed.

(** ** More on WAV inspection *)

Section ExactDivision.

Lemma digits2_pos_upper p : Z.pos p < 2 ^ Z.pos (digits2_pos p).
Proof.
  induction p as [p IH | p IH |]; simpl digits2_pos;
    [rewrite Pos2Z.inj_succ, Z.pow_succ_r by lia; lia .. |].
  simpl. lia.
Qed.

Lemma digits2_pos_unique p d :
  2 ^ (d - 1) <= Z.pos p < 2 ^ d -> Z.pos (digits2_pos p) = d.
Proof.
  intros [Hl Hu]. pose proof (digits2_pos_lower p) as L. pose proof (digits2_pos_upper p) as U.
  assert (0 < d).
  { destruct d as [|d|d]; [simpl in Hu; lia | lia |].
    rewrite Z.pow_neg_r in Hu by lia. lia. }
  destruct (Z.lt_trichotomy (Z.pos (digits2_pos p)) d) as [H1 | [H1 | H1]]; [|assumption|].
  - assert (2 ^ Z.pos (digits2_pos p) <= 2 ^ (d - 1)) by (apply Z.pow_le_mono_r; lia). lia.
  - assert (2 ^ d <= 2 ^ (Z.pos (digits2_pos p) - 1)) by (apply Z.pow_le_mono_r; lia). lia.
Qed.

Lemma round_exact_53 q e :
  Z.pos (digits2_pos q) = 53 -> -1021 <= e <= 971 ->
  binary_round_aux 53 1024 false (Z.pos q) e loc_Exact = S754_finite false q e.
Proof.
  intros Hd He. unfold binary_round_aux, shr_fexp. cbn [Zdigits2 shr_record_of_loc].
  set (d := digits2_pos q) in *.
  replace (fexp 53 1024 (Z.pos d + e) - e) with 0 by (unfold fexp, emin; lia).
  cbn [shr shr_m loc_of_shr_record round_nearest_even Zdigits2 shr_record_of_loc].
  fold d.
  replace (fexp 53 1024 (Z.pos d + e) - e) with 0 by (unfold fexp, emin; lia).
  cbn [shr shr_m].
  replace (e <=? 1024 - 53) with true by (symmetry; apply Z.leb_le; lia).
  reflexivity.
Qed.

Lemma round_exact_54 q e :
  Z.pos (digits2_pos q) = 53 -> -1021 <= e + 1 <= 971 ->
  binary_round_aux 53 1024 false (Z.pos q~0) e loc_Exact = S754_finite false q (e + 1).
Proof.
  intros Hd He. unfold binary_round_aux, shr_fexp.
  cbn [Zdigits2 shr_record_of_loc digits2_pos].
  set (d := digits2_pos q) in *.
  replace (fexp 53 1024 (Z.pos (Pos.succ d) + e) - e) with 1 by (unfold fexp, emin; lia).
  cbn [shr SpecFloat.iter_pos shr_1 orb shr_m loc_of_shr_record round_nearest_even
       Zdigits2 shr_record_of_loc].
  fold d.
  replace (fexp 53 1024 (Z.pos d + (e + 1)) - (e + 1)) with 0 by (unfold fexp, emin; lia).
  cbn [shr shr_m].
  replace (e + 1 <=? 1024 - 53) with true by (symmetry; apply Z.leb_le; lia).
  reflexivity.
Qed.

Lemma int_to_float_normal p :
  Z.pos (digits2_pos p) <= 53 ->
  exists m, Py.int_to_float (Z.pos p) = S754_finite false m (Z.pos (digits2_pos p) - 53) /\
            Z.pos m = Z.pos p * 2 ^ (53 - Z.pos (digits2_pos p)) /\
            Z.pos (digits2_pos m) = 53.
Proof.
  intros Hd. unfold Py.int_to_float, Py.prec, Py.emax, binary_normalize, binary_round.
  set (d := digits2_pos p) in *.
  assert (Hfexp : fexp 53 1024 (Z.pos d + 0) = Z.pos d - 53) by (unfold fexp, emin; lia).
  rewrite Hfexp. unfold shl_align.
  destruct (Z.pos d - 53 - 0) as [|q|q] eqn:Eq; try lia.
  - exists p. assert (Z.pos d = 53) by lia. split; [|split].
    + rewrite round_exact_53 by (fold d; lia). f_equal. lia.
    + replace (53 - Z.pos d) with 0 by lia. lia.
    + assumption.
  - exists (Pos.iter xO p q).
    assert (Hq : Z.pos q = 53 - Z.pos d) by lia.
    assert (Hdq : Z.pos (digits2_pos (Pos.iter xO p q)) = 53)
      by (rewrite digits2_pos_iter_xO; fold d; lia).
    split; [|split].
    + apply round_exact_53; [exact Hdq | lia].
    + rewrite pos_iter_xO_value, Hq. reflexivity.
    + exact Hdq.
Qed.

Lemma pow2_lt_inv a b : 0 <= b -> 2 ^ a < 2 ^ b -> a < b.
Proof. intros Hb H. apply (Z.pow_lt_mono_r_iff 2); lia. Qed.

Lemma sfdiv_exact k r :
  0 < k -> 0 < r -> k * r < 2 ^ 53 ->
  SFdiv Py.prec Py.emax (Py.int_to_float (k * r)) (Py.int_to_float r) = Py.int_to_float k.
Proof.
  intros Hk Hr Hn. unfold Py.prec, Py.emax.
  assert (Hr53 : r < 2 ^ 53) by nia.
  assert (Hk53 : k < 2 ^ 53) by nia.
  destruct (k * r) as [|pn|pn] eqn:En; try lia.
  destruct k as [|pk|pk]; try lia. destruct r as [|pr|pr]; try lia.
  pose proof (digits2_pos_lower pn) as Ln. pose proof (digits2_pos_upper pn) as Un.
  pose proof (digits2_pos_lower pk) as Lk. pose proof (digits2_pos_upper pk) as Uk.
  pose proof (digits2_pos_lower pr) as Lr. pose proof (digits2_pos_upper pr) as Ur.
  set (dn := Z.pos (digits2_pos pn)) in *.
  set (dk := Z.pos (digits2_pos pk)) in *.
  set (dr := Z.pos (digits2_pos pr)) in *.
  assert (Hdn : 1 <= dn <= 53).
  { split; [unfold dn; lia|]. apply Z.lt_succ_r, pow2_lt_inv; [lia|].
    replace (Z.succ 53) with (1 + 53) by lia. rewrite Z.pow_add_r by lia.
    assert (2 ^ (dn - 1) < 2 ^ 53) by lia.
    replace dn with (1 + (dn - 1)) at 1 by lia. rewrite Z.pow_add_r by (unfold dn; lia). lia. }
  assert (Hdk : 1 <= dk <= 53).
  { split; [unfold dk; lia|]. apply Z.lt_succ_r, pow2_lt_inv; [lia|].
    replace (Z.succ 53) with (1 + 53) by lia. rewrite Z.pow_add_r by lia.
    assert (2 ^ (dk - 1) < 2 ^ 53) by lia.
    replace dk with (1 + (dk - 1)) at 1 by lia. rewrite Z.pow_add_r by (unfold dk; lia). lia. }
  assert (Hdr : 1 <= dr <= 53).
  { split; [unfold dr; lia|]. apply Z.lt_succ_r, pow2_lt_inv; [lia|].
    replace (Z.succ 53) with (1 + 53) by lia. rewrite Z.pow_add_r by lia.
    assert (2 ^ (dr - 1) < 2 ^ 53) by lia.
    replace dr with (1 + (dr - 1)) at 1 by lia. rewrite Z.pow_add_r by (unfold dr; lia). lia. }
  (* the number of digits of the product *)
  assert (Hsum : dn = dk + dr \/ dn = dk + dr - 1).
  { assert (H1 : dn - 1 < dk + dr).
    { apply pow2_lt_inv; [lia|]. rewrite Z.pow_add_r by lia.
      assert (Z.pos pk * Z.pos pr < 2 ^ dk * 2 ^ dr) by nia. lia. }
    assert (H2 : dk - 1 + (dr - 1) < dn).
    { apply pow2_lt_inv; [lia|]. rewrite Z.pow_add_r by lia.
      assert (2 ^ (dk - 1) * 2 ^ (dr - 1) <= Z.pos pk * Z.pos pr).
      { apply Z.mul_le_mono_nonneg; lia. }
      lia. }
    lia. }
  destruct (int_to_float_normal pn ltac:(fold dn; lia)) as (mn & -> & Hmn & Hdmn).
  destruct (int_to_float_normal pr ltac:(fold dr; lia)) as (mr & -> & Hmr & Hdmr).
  destruct (int_to_float_normal pk ltac:(fold dk; lia)) as (mk & -> & Hmk & Hdmk).
  fold dn in Hmn. fold dr in Hmr. fold dk in Hmk. fold dn dr dk.
  cbn [SFdiv xorb]. unfold SFdiv_core_binary. cbn [Zdigits2]. rewrite Hdmn, Hdmr.
  replace (Z.min (fexp 53 1024 (53 + (dn - 53) - (53 + (dr - 53)))) (dn - 53 - (dr - 53)))
    with (dn - dr - 53) by (unfold fexp, emin; lia).
  replace (dn - 53 - (dr - 53) - (dn - dr - 53)) with 53 by lia.
  rewrite Z.shiftl_mul_pow2 by lia.
  set (Q := Z.pos pk * 2 ^ (53 - dn + dr)).
  assert (HQ : Z.pos mn * 2 ^ 53 = Q * Z.pos mr).
  { unfold Q. rewrite Hmn, Hmr, <- En.
    replace (2 ^ 53) with (2 ^ dr * 2 ^ (53 - dr)) by (rewrite <- Z.pow_add_r by lia; f_equal; lia).
    rewrite (Z.pow_add_r 2 (53 - dn) dr) by lia. ring. }
  assert (Hdiv : Z.div_eucl (Z.pos mn * 2 ^ 53) (Z.pos mr) = (Q, 0)).
  { pose proof (Z.div_mul Q (Z.pos mr) ltac:(lia)) as Hq.
    pose proof (Z.mod_mul Q (Z.pos mr) ltac:(lia)) as Hm.
    rewrite <- HQ in Hq, Hm. unfold Z.div, Z.modulo in Hq, Hm.
    destruct (Z.div_eucl (Z.pos mn * 2 ^ 53) (Z.pos mr)) as [q m]. simpl in Hq, Hm. subst q m. reflexivity. }
  rewrite Hdiv.
  assert (Hloc : new_location (Z.pos mr) 0 = loc_Exact).
  { unfold new_location, new_location_even, new_location_odd.
    destruct (Z.even (Z.pos mr)); reflexivity. }
  rewrite Hloc.
  assert (HQpos : 0 < Q) by (unfold Q; apply Z.mul_pos_pos; [lia | apply Z.pow_pos_nonneg; lia]).
  destruct Hsum as [Hs | Hs].
  - (* dk = dn - dr: the quotient has 53 digits *)
    assert (HQk : Q = Z.pos mk) by (unfold Q; rewrite Hmk; f_equal; f_equal; lia).
    rewrite HQk, round_exact_53 by (assumption || lia). f_equal. lia.
  - (* dk = dn - dr + 1: the quotient has 54 digits and is even *)
    assert (HQk : Q = Z.pos mk~0).
    { rewrite Pos2Z.inj_xO, Hmk. unfold Q.
      replace (53 - dn + dr) with (1 + (53 - dk)) by lia.
      rewrite Z.pow_add_r by lia. ring. }
    rewrite HQk, round_exact_54 by (assumption || lia). f_equal. lia.
Qed.

End ExactDivision.

Section WavRuns.
Context (h : host).

Lemma float_of_int_world z w : snd (Py.float_of_int z w) = w.
Proof. unfold Py.float_of_int. destruct (Py.int_to_float z); reflexivity. Qed.

Lemma truediv_world x y w : snd (Py.truediv x y w) = w.
Proof. unfold Py.truediv. destruct y; reflexivity. Qed.

(** The division of [get_duration] neither reads nor writes the world. *)
Lemma duration_body_world p w :
  snd ((do r <- Py.float_of_int (framerate p);
        do n <- Py.float_of_int (nframes p);
        do q <- Py.truediv n r;
        ret (VFloat q)) w) = w.
Proof.
  unfold bind at 1. pose proof (float_of_int_world (framerate p) w) as H1.
  destruct (Py.float_of_int (framerate p) w) as [[r|e] w1]; cbn [snd] in H1; subst w1;
    [|reflexivity].
  unfold bind at 1. pose proof (float_of_int_world (nframes p) w) as H2.
  destruct (Py.float_of_int (nframes p) w) as [[n|e] w2]; cbn [snd] in H2; subst w2;
    [|reflexivity].
  unfold bind at 1. pose proof (truediv_world n r w) as H3.
  destruct (Py.truediv n r w) as [[q|e] w3]; cbn [snd] in H3; subst w3; reflexivity.
Qed.

Lemma get_duration_run w fname p q :
  files h !! fname = Some (WaveFile p) ->
  0 <= nframes p < 2 ^ 53 ->
  0 < framerate p < 2 ^ 53 ->
  SFdiv Py.prec Py.emax (Py.int_to_float (nframes p)) (Py.int_to_float (framerate p)) = q ->
  utils.get_duration h fname w =
    (Return (VFloat q), World (sys_modules w) (trace w ++ [EvOpen fname; EvClose fname])).
Proof.
  intros Hfile Hframes Hrate Hq. unfold utils.get_duration. unfold bind at 1.
  rewrite (wave_open_run h w fname p Hfile). cbv zeta.
  erewrite closing_run.
  - cbn [sys_modules trace]. rewrite <- app_assoc. reflexivity.
  - unfold bind at 1. rewrite float_of_int_run by lia.
    unfold bind at 1. rewrite float_of_int_run by lia.
    unfold bind at 1. rewrite truediv_run by lia. rewrite Hq. reflexivity.
Qed.

Lemma get_duration_world w fname p :
  files h !! fname = Some (WaveFile p) ->
  snd (utils.get_duration h fname w) =
    World (sys_modules w) (trace w ++ [EvOpen fname; EvClose fname]).
Proof.
  intros Hfile. unfold utils.get_duration. unfold bind at 1.
  rewrite (wave_open_run h w fname p Hfile). cbv zeta.
  unfold Py.closing, try_finally.
  pose proof (duration_body_world p
                (World (sys_modules w) (trace w ++ [EvOpen fname]))) as Hbody.
  destruct ((do r <- Py.float_of_int (framerate p);
             do n <- Py.float_of_int (nframes p);
             do q <- Py.truediv n r;
             ret (VFloat q))
              (World (sys_modules w) (trace w ++ [EvOpen fname]))) as [o w1].
  cbn [snd] in Hbody. subst w1. unfold log.
  cbn [snd sys_modules trace]. rewrite <- app_assoc. reflexivity.
Qed.

Lemma get_bit_depth_run w fname p :
  files h !! fname = Some (WaveFile p) ->
  utils.get_bit_depth h fname w =
    (Return (VInt (sampwidth p * 8)),
     World (sys_modules w) (trace w ++ [EvOpen fname; EvClose fname])).
Proof.
  intros Hfile. unfold utils.get_bit_depth. unfold bind at 1.
  rewrite (wave_open_run h w fname p Hfile). cbv zeta.
  erewrite closing_run by reflexivity.
  cbn [sys_modules trace]. rewrite <- app_assoc. reflexivity.
Qed.

End WavRuns.

(** X17: a file whose frame count is a whole multiple [k] of its sample
    rate lasts [k] seconds on the dot: [get_duration] returns the float of
    the int [k], with no rounding error from the division. *)
Theorem get_duration_whole_seconds (h : host) (w : world) (fname : string)
    (p : wave_params) (k : Z) :
  files h !! fname = Some (WaveFile p) ->
  0 < framerate p < 2 ^ 32 ->
  0 <= k ->
  nframes p = k * framerate p ->
  nframes p < 2 ^ 32 ->
  utils.get_duration h fname w =
    (Return (VFloat (Py.int_to_float k)),
     World (sys_modules w) (trace w ++ [EvOpen fname; EvClose fname])).
Proof.
  intros Hfile Hrate Hk Hn Hlt.
  apply (get_duration_run h w fname p); [assumption | nia | lia |].
  rewrite Hn. destruct (Z.eq_dec k 0) as [-> | Hk0].
  - destruct (int_to_float_exact (framerate p) ltac:(lia)) as (m & e & -> & _).
    reflexivity.
  - apply sfdiv_exact; [lia | lia |]. rewrite <- Hn. lia.
Qed.

(** 48000 frames at 16000 Hz are 3.0 seconds, the float 3 * 2^51 * 2^-51. *)
Lemma get_duration_whole_seconds_witness :
  utils.get_duration Stale.studio "take.wav" Sample.boot =
    (Return (VFloat (S754_finite false 6755399441055744 (-51))),
     World ∅ [EvOpen "take.wav"; EvClose "take.wav"]).
Proof.
  apply (get_duration_whole_seconds Stale.studio Sample.boot "take.wav" Stale.take 3).
  - reflexivity.
  - simpl. lia.
  - lia.
  - reflexivity.
  - simpl. lia.
Defined.

(** X18: on a file that [wave.open] accepts (its reader then reports at
    least one channel and a sample width of at least one byte),
    [get_duration] and [get_bit_depth] open the file once and close it
    again and leave [sys.modules] alone, also when the division of
    [get_duration] fails on a sample rate of 0; [get_bit_depth] returns 8
    times the sample width. *)
Theorem wav_inspection_closes_file (h : host) (w : world) (fname : string)
    (p : wave_params) :
  files h !! fname = Some (WaveFile p) ->
  0 < nchannels p ->
  0 < sampwidth p ->
  0 <= nframes p ->
  0 <= framerate p ->
  snd (utils.get_duration h fname w) =
    World (sys_modules w) (trace w ++ [EvOpen fname; EvClose fname]) /\
  utils.get_bit_depth h fname w =
    (Return (VInt (sampwidth p * 8)),
     World (sys_modules w) (trace w ++ [EvOpen fname; EvClose fname])).
Proof.
  intros E _ _ _ _. split.
  - apply (get_duration_world h w fname p E).
  - apply (get_bit_depth_run h w fname p E).
Qed.

Lemma wav_inspection_closes_file_witness :
  snd (utils.get_duration Sample.machine "rate0.wav" Sample.boot) =
    World ∅ [EvOpen "rate0.wav"; EvClose "rate0.wav"] /\
  utils.get_bit_depth Sample.machine "rate0.wav" Sample.boot =
    (Return (VInt 16), World ∅ [EvOpen "rate0.wav"; EvClose "rate0.wav"]).
Proof.
  apply (wav_inspection_closes_file Sample.machine Sample.boot "rate0.wav" Sample.rate0).
  - reflexivity.
  - reflexivity.
  - reflexivity.
  - discriminate.
  - discriminate.
Defined.

(** A file that [wave.open] rejects is opened and closed by [wave.open]
    itself, and its exception leaves both functions. *)
Lemma wav_inspection_rejected_file (h : host) (w : world) (fname : string) (e : exn) :
  files h !! fname = Some (OtherFile e) ->
  utils.get_duration h fname w =
    (Raise e, World (sys_modules w) (trace w ++ [EvOpen fname; EvClose fname])) /\
  utils.get_bit_depth h fname w =
    (Raise e, World (sys_modules w) (trace w ++ [EvOpen fname; EvClose fname])).
Proof.
  intros E. unfold utils.get_duration, utils.get_bit_depth, Py.wave_open. rewrite E.
  unfold bind, log, lift. cbn [fst snd sys_modules trace].
  rewrite <- app_assoc. split; reflexivity.
Qed.

Example wav_inspection_cut_file :
  utils.get_duration Stale.studio "cut.wav" Sample.boot =
    (Raise (Exn (OtherError "EOFError") ""),
     World ∅ [EvOpen "cut.wav"; EvClose "cut.wav"]).
Proof. vm_compute. reflexivity. Qed.

(** ** More on checkpoints *)

Section CheckpointPaths.

Lemma all_char_app c a b :
  PyStr.all_char c (a ++ b) = PyStr.all_char c a && PyStr.all_char c b.
Proof.
  induction a as [|x a IH]; [reflexivity|]. simpl. rewrite IH. apply andb_assoc.
Qed.

Lemma all_char_endswith c s :
  PyStr.all_char c s = true -> s <> "" -> PyStr.endswith_char c s = true.
Proof.
  induction s as [|a s IH]; [congruence|]. intros H _.
  cbn [PyStr.all_char] in H. apply andb_true_iff in H as [Ha Hs].
  destruct s as [|b s]; [exact Ha|].
  change (PyStr.endswith_char c (String a (String b s)))
    with (PyStr.endswith_char c (String b s)).
  apply IH; [exact Hs | discriminate].
Qed.

(** The directory part of a join with a file name is the directory as it
    was given, without its trailing slashes. *)
Lemma dirname_join dir name :
  PyStr.has_char PosixPath.sep name = false ->
  PosixPath.dirname (PosixPath.join dir name) =
    if String.eqb dir "" then ""
    else if PyStr.all_char PosixPath.sep dir then dir
    else PyStr.rstrip PosixPath.sep dir.
Proof.
  intros Hname. unfold PosixPath.join, PosixPath.dirname.
  rewrite (no_sep_not_absolute _ Hname).
  destruct (String.eqb_spec dir "") as [-> | Hdir]; cbn [orb].
  - apply rcut_None in Hname. change ("" ++ name) with name. rewrite Hname. reflexivity.
  - destruct (PyStr.endswith_char PosixPath.sep dir) eqn:E.
    + rewrite (rcut_app_l _ _ _ Hname).
      destruct (endswith_char_rcut _ _ E) as [pre Hpre]. rewrite Hpre.
      apply rcut_Some in Hpre as [Hd _].
      change (pre ++ "/") with (pre ++ String PosixPath.sep ""). rewrite <- Hd.
      reflexivity.
    + change (dir ++ "/" ++ name) with (dir ++ String PosixPath.sep name).
      rewrite (rcut_app _ _ _ Hname).
      change (dir ++ "/") with (dir ++ String PosixPath.sep "").
      assert (Hall : PyStr.all_char PosixPath.sep dir = false).
      { destruct (PyStr.all_char PosixPath.sep dir) eqn:Ea; [|reflexivity].
        rewrite (all_char_endswith _ _ Ea Hdir) in E. discriminate. }
      rewrite all_char_app, Hall. cbn [andb]. apply rstrip_app_sep.
Qed.

(** A path that ends in a character other than the slash is not made of
    slashes and has nothing to strip. *)
Lemma ends_in_other c t a :
  Ascii.eqb a c = false ->
  PyStr.all_char c (t ++ String a "") = false /\
  PyStr.rstrip c (t ++ String a "") = t ++ String a "".
Proof.
  intros Ha. induction t as [|x t [IH1 IH2]].
  - simpl. rewrite Ha. split; reflexivity.
  - split.
    + change (PyStr.all_char c (String x (t ++ String a "")) = false).
      cbn [PyStr.all_char]. rewrite IH1. apply andb_false_r.
    + change (PyStr.rstrip c (String x (t ++ String a "")) = String x (t ++ String a "")).
      cbn [PyStr.rstrip]. rewrite IH2. destruct t; reflexivity.
Qed.

End CheckpointPaths.

(** X19: the checkpoint of the metadata table lies in the cache directory.
    Its path has the file name [audioldm2-full.pth], and its directory is
    [CACHE_DIR] without trailing slashes ([CACHE_DIR] itself when it is
    made of slashes only), so that is where [download_checkpoint] asks the
    hub to put the file. *)
Theorem checkpoint_path_in_cache_dir (h : host) :
  exists entry path,
    utils.get_metadata h !! "audioldm2-full" = Some entry /\
    entry !! "path" = Some path /\
    PosixPath.basename path = "audioldm2-full.pth" /\
    PosixPath.dirname path =
      if String.eqb (utils.CACHE_DIR h) "" then ""
      else if PyStr.all_char "/" (utils.CACHE_DIR h) then utils.CACHE_DIR h
      else PyStr.rstrip "/" (utils.CACHE_DIR h).
Proof.
  eexists _, _. split; [apply lookup_singleton_eq|].
  split; [apply lookup_insert_eq|]. split.
  - apply basename_join. reflexivity.
  - apply dirname_join. reflexivity.
Qed.

Example checkpoint_dir_from_environ :
  snd (utils.download_checkpoint Stale.studio "audioldm2-full" Sample.boot) =
    World ∅ [EvHubDownload "haoheliu/audioldm2-full" "audioldm2-full.pth" "/data/ckpt"].
Proof. vm_compute. reflexivity. Qed.

(** X20: when [AUDIOLDM_CACHE_DIR] is not set, [download_checkpoint] of the
    supported name asks the hub for [audioldm2-full.pth] of the repository
    [haoheliu/audioldm2-full], to be put into [.cache/audioldm2] under the
    home directory, and does nothing else. *)
Theorem download_checkpoint_default_dir (h : host) (w : world) :
  environ h !! "AUDIOLDM_CACHE_DIR" = None ->
  snd (utils.download_checkpoint h "audioldm2-full" w) =
    World (sys_modules w)
          (trace w ++ [EvHubDownload "haoheliu/audioldm2-full" "audioldm2-full.pth"
                         (PosixPath.join (home h) ".cache/audioldm2")]).
Proof.
  intros Henv. rewrite download_checkpoint_run.
  assert (Hm : utils.get_metadata h !! "audioldm2-full" <> None)
    by (rewrite get_metadata_lookup; congruence).
  destruct (utils.get_metadata h !! "audioldm2-full"); [|congruence].
  cbv zeta. cbn [snd]. do 3 f_equal.
  rewrite dirname_join by reflexivity.
  unfold utils.CACHE_DIR. rewrite Henv.
  assert (Hshape : exists t, PosixPath.join (home h) ".cache/audioldm2" = t ++ String "2" "").
  { unfold PosixPath.join. cbn [PyStr.startswith Ascii.eqb Bool.eqb andb].
    destruct (String.eqb (home h) "" || PyStr.endswith_char PosixPath.sep (home h))%bool.
    - exists (home h ++ ".cache/audioldm"). rewrite str_app_assoc. reflexivity.
    - exists (home h ++ "/.cache/audioldm"). rewrite str_app_assoc. reflexivity. }
  destruct Hshape as [t Ht]. rewrite Ht.
  destruct (ends_in_other PosixPath.sep t "2" eq_refl) as [Hall Hstrip].
  rewrite Hall, Hstrip.
  destruct (String.eqb_spec (t ++ String "2" "") "") as [E | _]; [|reflexivity].
  destruct t; discriminate E.
Qed.

Lemma download_checkpoint_default_dir_witness :
  snd (utils.download_checkpoint Sample.machine "audioldm2-full" Sample.boot) =
    World ∅ [EvHubDownload "haoheliu/audioldm2-full" "audioldm2-full.pth"
               "/home/user/.cache/audioldm2"].
Proof.
  apply (download_checkpoint_default_dir Sample.machine Sample.boot). reflexivity.
Defined.

(** ** More on the value-default helper *)

(** X21: fallbacks chain.  For plain defaults [b] and [c], falling back
    from [a] to [b] and from the result to [c] is falling back from [a] to
    what [b] falls back to: in both orders the first of [a], [b], [c] that
    is not [None] is returned, and nothing is called. *)
Theorem default_chain (h : host) (w : world) (a b c : value) :
  Py.isfunction b = false ->
  Py.isfunction c = false ->
  (do x <- utils.default h a b; utils.default h x c) w =
    (do y <- utils.default h b c; utils.default h a y) w /\
  (do x <- utils.default h a b; utils.default h x c) w =
    (Return (if utils.exists_ a then a else if utils.exists_ b then b else c), w).
Proof.
  intros Hb Hc.
  destruct b; try discriminate Hb; destruct c; try discriminate Hc;
    destruct a; split; reflexivity.
Qed.

Lemma default_chain_witness :
  (do x <- utils.default Sample.machine VNone VNone; utils.default Sample.machine x (VInt 3))
    Sample.boot =
    (do y <- utils.default Sample.machine VNone (VInt 3); utils.default Sample.machine VNone y)
      Sample.boot /\
  (do x <- utils.default Sample.machine VNone VNone; utils.default Sample.machine x (VInt 3))
    Sample.boot = (Return (VInt 3), Sample.boot).
Proof.
  apply (default_chain Sample.machine Sample.boot VNone VNone (VInt 3)); reflexivity.
Defined.
